(** * SumoLogic MCP server: a shallow embedding of the tool handlers

    The repository holds two implementations of the same fourteen tools:

    - the [sumoLogicTools] array of [{name, parameters, execute}] records
      (src/index.ts), whose [execute] functions return the decoded response
      body and signal a failure by rejecting with [new Error(...)];
    - the [server.tool(name, description, shape, handler)] registrations
      (the TypeScript part of src/README.md), whose handlers return a
      [{content, isError}] envelope.

    Both are embedded below, in the modules [ToolsArray] and [ServerTool].
    The JavaScript values the handlers manipulate, the axios client they
    call and the process start-up sequence are embedded first. *)

From Stdlib Require Import List String Ascii ZArith Bool Lia DecimalString.
Import ListNotations.
Open Scope string_scope.

Set Implicit Arguments.
Set Warnings "-register-all".


(* ================================================================== *)
(** ** JavaScript values *)

Module JS.

(** A JavaScript value as the handlers see it: what [JSON.parse] produces,
    plus [undefined].  Numbers are the integer-valued ones (status codes,
    [limit], [offset]); an object is the list of its own properties in
    property order. *)
Inductive value : Type :=
| VUndefined
| VNull
| VBool (b : bool)
| VNum (n : Z)
| VStr (s : string)
| VArr (elems : list value)
| VObj (props : list (string * value)).

Definition object := list (string * value).

(** What a [throw] (or a rejected promise) carries. *)
Record AxiosResponse : Type := {
  status : Z;
  headers : list (string * string);
  data : value
}.

Inductive thrown : Type :=
| AxiosError (message : string) (response : option AxiosResponse)
| Error (message : string)
| NonError (v : value).

Inductive completion (A : Type) : Type :=
| Normal (a : A)
| Throw (e : thrown).
Arguments Normal {A} a.
Arguments Throw {A} e.

(** Sequencing of two evaluations: an abrupt completion of the first is
    the completion of the whole. *)
Definition and_then {A B} (c : completion A) (k : A -> completion B)
    : completion B :=
  match c with
  | Normal a => k a
  | Throw e => Throw e
  end.

Notation "x <~ c ;; k" := (and_then c (fun x => k))
  (at level 61, c at next level, right associativity).

(** [ToBoolean]. *)
Definition truthy (v : value) : bool :=
  match v with
  | VUndefined | VNull => false
  | VBool b => b
  | VNum n => negb (n =? 0)%Z
  | VStr s => negb (s =? "")
  | VArr _ | VObj _ => true
  end.

(** [a || b], with [b] already evaluated (used where [b] cannot throw). *)
Definition or_else (a b : value) : value := if truthy a then a else b.

(** [Number.prototype.toString] on a safe integer, a number whose
    magnitude is at most 2^53 - 1: there every integer is a number of its
    own and the text is its decimal notation.  Beyond that the text of a
    JavaScript number rounds, and from 1e21 on it is in exponent
    notation. *)
Definition Number_toString (n : Z) : string :=
  NilZero.string_of_int (Z.to_int n).

(** [ToString], as a template literal applies it. *)
Fixpoint ToString (v : value) : string :=
  match v with
  | VUndefined => "undefined"
  | VNull => "null"
  | VBool b => if b then "true" else "false"
  | VNum n => Number_toString n
  | VStr s => s
  | VArr l =>
      String.concat ","
        (map (fun e => match e with
                       | VUndefined | VNull => ""
                       | _ => ToString e
                       end) l)
  | VObj _ => "[object Object]"
  end.

Definition dquote : string := String (ascii_of_nat 34) "".
Definition backslash : string := String (ascii_of_nat 92) "".
Definition LF : string := String (ascii_of_nat 10) "".

Definition hex_digit (n : nat) : string :=
  String (nth n ["0"; "1"; "2"; "3"; "4"; "5"; "6"; "7"; "8"; "9";
                 "a"; "b"; "c"; "d"; "e"; "f"]%char "0"%char) "".

(** One code unit of [QuoteJSONString]. *)
Definition quote_char (c : ascii) : string :=
  let n := nat_of_ascii c in
  if (n =? 8)%nat then backslash ++ "b"
  else if (n =? 9)%nat then backslash ++ "t"
  else if (n =? 10)%nat then backslash ++ "n"
  else if (n =? 12)%nat then backslash ++ "f"
  else if (n =? 13)%nat then backslash ++ "r"
  else if (n =? 34)%nat then backslash ++ dquote
  else if (n =? 92)%nat then backslash ++ backslash
  else if (n <? 32)%nat
       then backslash ++ "u00" ++ hex_digit (n / 16) ++ hex_digit (n mod 16)
  else String c "".

Fixpoint quote_chars (s : string) : string :=
  match s with
  | EmptyString => ""
  | String c rest => quote_char c ++ quote_chars rest
  end.

Definition QuoteJSONString (s : string) : string :=
  dquote ++ quote_chars s ++ dquote.

(** The closing step of [SerializeJSONObject] and [SerializeJSONArray]. *)
Definition wrap (open close gap stepback indent : string)
    (partial : list string) : string :=
  match partial with
  | [] => open ++ close
  | _ =>
      if gap =? ""
      then open ++ String.concat "," partial ++ close
      else open ++ LF ++ indent
             ++ String.concat ("," ++ LF ++ indent) partial
             ++ LF ++ stepback ++ close
  end.

(** [SerializeJSONProperty]: [None] is the [undefined] it returns for a
    value that has no JSON form. *)
Fixpoint SerializeJSONProperty (gap indent : string) (v : value)
    : option string :=
  match v with
  | VUndefined => None
  | VNull => Some "null"
  | VBool b => Some (if b then "true" else "false")
  | VNum n => Some (Number_toString n)
  | VStr s => Some (QuoteJSONString s)
  | VArr l =>
      let indent' := indent ++ gap in
      Some (wrap "[" "]" gap indent indent'
              (map (fun e =>
                      match SerializeJSONProperty gap indent' e with
                      | Some s => s
                      | None => "null"
                      end) l))
  | VObj o =>
      let indent' := indent ++ gap in
      Some (wrap "{" "}" gap indent indent'
              (flat_map (fun kv =>
                      match SerializeJSONProperty gap indent' (snd kv) with
                      | Some s =>
                          [QuoteJSONString (fst kv) ++ ":"
                             ++ (if gap =? "" then "" else " ") ++ s]
                      | None => []
                      end) o))
  end.

(** [JSON.stringify(v)] and [JSON.stringify(v, null, 2)]. *)
Definition JSON_stringify (v : value) : option string :=
  SerializeJSONProperty "" "" v.

Definition JSON_stringify_2 (v : value) : option string :=
  SerializeJSONProperty "  " "" v.

(** A template literal applied to the result of [JSON.stringify]. *)
Definition template_of (s : option string) : string :=
  match s with
  | Some s => s
  | None => "undefined"
  end.

(** Own-property lookup; [undefined] when the key is absent. *)
Fixpoint lookup (k : string) (o : object) : value :=
  match o with
  | [] => VUndefined
  | (k', v) :: rest => if k' =? k then v else lookup k rest
  end.

(** [CreateDataProperty] as an object literal performs it: an existing key
    keeps its place and takes the new value, a new key goes last. *)
Fixpoint define_property (k : string) (v : value) (o : object) : object :=
  match o with
  | [] => [(k, v)]
  | (k', v') :: rest =>
      if k' =? k then (k', v) :: rest
      else (k', v') :: define_property k v rest
  end.

Definition nat_toString (n : nat) : string := Number_toString (Z.of_nat n).

Fixpoint indexed (i : nat) (l : list value) : object :=
  match l with
  | [] => []
  | v :: rest => (nat_toString i, v) :: indexed (S i) rest
  end.

Fixpoint chars (s : string) : list value :=
  match s with
  | EmptyString => []
  | String c rest => VStr (String c "") :: chars rest
  end.

(** The own enumerable properties [{...v}] copies. *)
Definition spread (v : value) : object :=
  match v with
  | VObj o => o
  | VArr l => indexed 0 l
  | VStr s => indexed 0 (chars s)
  | _ => []
  end.

(** V8's message for a property read on [undefined] or [null]. *)
Definition cannot_read (v : value) (k : string) : thrown :=
  Error ("Cannot read properties of " ++ ToString v
           ++ " (reading '" ++ k ++ "')").

(** [v.k] for the property names the handlers read ([collector], [name],
    [description], [category], [fields], [response], [message], [status],
    [data]): none of them is an index, [length] or a prototype member, so
    on anything but an object the read gives [undefined], and on
    [undefined] and [null] it throws a [TypeError]. *)
Definition Get (v : value) (k : string) : completion value :=
  match v with
  | VUndefined | VNull => Throw (cannot_read v k)
  | VObj o => Normal (lookup k o)
  | _ => Normal VUndefined
  end.

Definition is_undefined (v : value) : bool :=
  match v with
  | VUndefined => true
  | _ => false
  end.

(** [v.toString()]. *)
Definition toString (v : value) : completion string :=
  match v with
  | VUndefined | VNull => Throw (cannot_read v "toString")
  | _ => Normal (ToString v)
  end.

(** The [collector] object literal of [update_collector] (the same text in
    both files): the spread, then the four properties in order;
    [currentCollector.x] is read only when the supplied value does not
    decide the property. *)
Definition merge_collector (currentCollector name description category
    fields : value) : completion object :=
  let o := spread currentCollector in
  name' <~ (if truthy name then Normal name
            else Get currentCollector "name") ;;
  description' <~ (if negb (is_undefined description) then Normal description
                   else Get currentCollector "description") ;;
  category' <~ (if truthy category then Normal category
                else Get currentCollector "category") ;;
  fields' <~ (if truthy fields then Normal fields
              else Get currentCollector "fields") ;;
  Normal (define_property "fields" fields'
           (define_property "category" category'
             (define_property "description" description'
               (define_property "name" name' o)))).

(** [if (v !== undefined) { params.k = v.toString(); }] of
    [get_search_job_results] (the same text in both files). *)
Definition set_param (k : string) (v : value)
    (params : list (string * string))
    : completion (list (string * string)) :=
  if negb (is_undefined v)
  then s <~ toString v ;; Normal (params ++ [(k, s)])%list
  else Normal params.

End JS.

(* ================================================================== *)
(** ** The axios client *)

Module Axios.
Import JS.

Inductive Method : Type := GET | POST | PUT | DELETE.

(** One call on the client: the method, the URL relative to [baseURL], the
    [data] argument ([undefined] when the call has none) and the
    [headers] and [params] of its config argument (empty when absent). *)
Record request : Type := {
  method : Method;
  url : string;
  body : value;
  req_headers : list (string * value);
  params : list (string * string)
}.

(** The promise of a call either resolves with a response or rejects with
    an [AxiosError], which carries the response when one was received. *)
Inductive outcome : Type :=
| Resolve (r : AxiosResponse)
| Reject (message : string) (response : option AxiosResponse).

(** The remote service and the network, seen from the client: the outcome
    of a call may depend on the calls issued before it. *)
Definition transport : Type := list request -> request -> outcome.

(** An [async] function body: it runs against a transport, appends the
    calls it issues to the log and completes normally or abruptly. *)
Definition Async (A : Type) : Type :=
  transport -> list request -> completion A * list request.

Definition ret {A} (a : A) : Async A := fun _ log => (Normal a, log).

Definition throw {A} (e : thrown) : Async A := fun _ log => (Throw e, log).

Definition bind {A B} (m : Async A) (k : A -> Async B) : Async B :=
  fun tr log =>
    match m tr log with
    | (Normal a, log') => k a tr log'
    | (Throw e, log') => (Throw e, log')
    end.

Definition lift {A} (c : completion A) : Async A := fun _ log => (c, log).

(** [try { body } catch (error) { handler }]. *)
Definition try_catch {A} (body : Async A) (handler : thrown -> Async A)
    : Async A :=
  fun tr log =>
    match body tr log with
    | (Normal a, log') => (Normal a, log')
    | (Throw e, log') => handler e tr log'
    end.

(** [await sumoLogicClient.request(q)]. *)
Definition send (q : request) : Async AxiosResponse :=
  fun tr log =>
    match tr log q with
    | Resolve r => (Normal r, (log ++ [q])%list)
    | Reject message response =>
        (Throw (AxiosError message response), (log ++ [q])%list)
    end.

Definition get (u : string) : Async AxiosResponse :=
  send {| method := GET; url := u; body := VUndefined;
          req_headers := []; params := [] |}.

Definition get_params (u : string) (ps : list (string * string))
    : Async AxiosResponse :=
  send {| method := GET; url := u; body := VUndefined;
          req_headers := []; params := ps |}.

Definition post (u : string) (d : value) : Async AxiosResponse :=
  send {| method := POST; url := u; body := d;
          req_headers := []; params := [] |}.

Definition put (u : string) (d : value) (hs : list (string * value))
    : Async AxiosResponse :=
  send {| method := PUT; url := u; body := d;
          req_headers := hs; params := [] |}.

Definition delete (u : string) : Async AxiosResponse :=
  send {| method := DELETE; url := u; body := VUndefined;
          req_headers := []; params := [] |}.

(** Running a handler from an empty log. *)
Definition run {A} (m : Async A) (tr : transport)
    : completion A * list request := m tr [].

(** [headers.etag] and the like on a response. *)
Fixpoint header (k : string) (hs : list (string * string)) : value :=
  match hs with
  | [] => VUndefined
  | (k', v) :: rest => if k' =? k then VStr v else header k rest
  end.

Definition is_method (m : Method) (q : request) : bool :=
  match m, q.(method) with
  | GET, GET | POST, POST | PUT, PUT | DELETE, DELETE => true
  | _, _ => false
  end.

(** The errors the transport raised for the calls of a log, in order;
    [done] is the log before [todo]. *)
Fixpoint rejections (tr : transport) (done todo : list request)
    : list thrown :=
  match todo with
  | [] => []
  | q :: rest =>
      match tr done q with
      | Resolve _ => rejections tr (done ++ [q])%list rest
      | Reject message response =>
          AxiosError message response :: rejections tr (done ++ [q])%list rest
      end
  end.

End Axios.

Declare Scope async_scope.
Delimit Scope async_scope with async.
Notation "x <- m ;; k" := (Axios.bind m (fun x => k))
  (at level 61, m at next level, right associativity) : async_scope.
Notation "'try' b 'catch' h" := (Axios.try_catch b h)
  (at level 62, b at level 61, no associativity) : async_scope.

(* ================================================================== *)
(** ** Process start-up *)

Module Startup.
Import JS.

(** [process.env] once [dotenv.config()] has run. *)
Definition env : Type := string -> option string.

(** [process.env.X || d]. *)
Definition env_or (e : env) (x d : string) : string :=
  match e x with
  | Some s => if s =? "" then d else s
  | None => d
  end.

Definition SUMOLOGIC_ACCESS_ID (e : env) : string :=
  env_or e "SUMOLOGIC_ACCESS_ID" "".
Definition SUMOLOGIC_ACCESS_KEY (e : env) : string :=
  env_or e "SUMOLOGIC_ACCESS_KEY" "".
Definition SUMOLOGIC_API_ENDPOINT (e : env) : string :=
  env_or e "SUMOLOGIC_API_ENDPOINT" "https://api.sumologic.com/api".

(** The argument of [axios.create]. *)
Record client_config : Type := {
  withCredentials : bool;
  baseURL : string;
  username : string;
  password : string;
  default_headers : list (string * string)
}.

(** What the process does while it starts, in order. *)
Inductive event : Type :=
| console_error (msg : string)
| process_exit (code : Z)
| axios_create (cfg : client_config)
| create_server (name version : string)
| register_tool (name : string)
| create_transport
| connect.

Definition credentials_missing : string :=
  "SumoLogic API credentials not provided. Please set SUMOLOGIC_ACCESS_ID and SUMOLOGIC_ACCESS_KEY environment variables.".

(** [!s] on a string. *)
Definition not_ (s : string) : bool := s =? "".

(** [main()]: the part of both files after the tools are declared;
    [connected] says whether [server.connect(transport)] resolves. *)
Definition main_tail (connected : bool) : list event :=
  ([create_transport; console_error "SumoLogic MCP Server starting...";
    connect]
   ++ (if connected
       then [console_error "SumoLogic MCP Server connected and ready"]
       else [console_error "Error connecting MCP server:"; process_exit 1])
  )%list.

End Startup.

(* ================================================================== *)
(** ** The [server.tool] implementation (TypeScript part of src/README.md) *)

Module ServerTool.
Import JS Axios.
Local Open Scope async_scope.

(** [handleApiError (error: unknown): string].  The [data] of a response
    is what axios decoded, on which [JSON.stringify] does not throw. *)
Definition handleApiError (error : thrown) : string :=
  match error with
  | AxiosError _ (Some response) =>
      "API Error: " ++ Number_toString response.(status) ++ " - "
        ++ template_of (JSON_stringify response.(data))
  | AxiosError message None => "Error: " ++ message
  | Error message => "Error: " ++ message
  | NonError _ => "Unknown error occurred"
  end.

Record TextContent : Type := { type : string; text : option string }.

(** The envelope a handler returns; [isError] is [None] when the property
    is not set. *)
Record CallToolResult : Type := {
  content : list TextContent;
  isError : option bool
}.

(** [{ content: [{ type: 'text', text: t }] }]. *)
Definition text_result (t : option string) : CallToolResult :=
  {| content := [ {| type := "text"; text := t |} ]; isError := None |}.

(** [{ content: [{ type: 'text', text: handleApiError(error) }],
       isError: true }], the catch branch of thirteen handlers. *)
Definition error_result (error : thrown) : CallToolResult :=
  {| content := [ {| type := "text"; text := Some (handleApiError error) |} ];
     isError := Some true |}.

Definition check_connection : Async CallToolResult :=
  try (_ <- get "/v1/collectors" ;;
       ret (text_result (JSON_stringify (VObj [
         ("status", VStr "success");
         ("message", VStr "Connection to SumoLogic API successful")]))))
  catch (fun error =>
       ret (text_result (JSON_stringify (VObj [
         ("status", VStr "error");
         ("message", VStr (handleApiError error))])))).

Definition list_collectors : Async CallToolResult :=
  try (response <- get "/v1/collectors" ;;
       ret (text_result (JSON_stringify_2 response.(data))))
  catch (fun error => ret (error_result error)).

Definition get_collector (collector_id : value) : Async CallToolResult :=
  try (response <- get ("/v1/collectors/" ++ ToString collector_id) ;;
       ret (text_result (JSON_stringify_2 response.(data))))
  catch (fun error => ret (error_result error)).

Definition create_hosted_collector (name description category fields : value)
    : Async CallToolResult :=
  try (let collectorData := VObj [
         ("collector", VObj [
            ("collectorType", VStr "Hosted");
            ("name", name);
            ("description", description);
            ("category", category);
            ("fields", fields)])] in
       response <- post "/v1/collectors" collectorData ;;
       ret (text_result (JSON_stringify_2 response.(data))))
  catch (fun error => ret (error_result error)).

Definition update_collector (collector_id name description category
    fields : value) : Async CallToolResult :=
  try (getResponse <- get ("/v1/collectors/" ++ ToString collector_id) ;;
       currentCollector <- lift (Get getResponse.(data) "collector") ;;
       let etag := header "etag" getResponse.(headers) in
       collector <- lift (merge_collector currentCollector name description
                            category fields) ;;
       let collectorData := VObj [("collector", VObj collector)] in
       response <- put ("/v1/collectors/" ++ ToString collector_id)
                     collectorData [("If-Match", etag)] ;;
       ret (text_result (JSON_stringify_2 response.(data))))
  catch (fun error => ret (error_result error)).

Definition delete_collector (collector_id : value) : Async CallToolResult :=
  try (_ <- delete ("/v1/collectors/" ++ ToString collector_id) ;;
       ret (text_result (JSON_stringify (VObj [
         ("status", VStr "success");
         ("message", VStr ("Collector " ++ ToString collector_id
                             ++ " deleted successfully"))]))))
  catch (fun error => ret (error_result error)).

Definition list_sources (collector_id : value) : Async CallToolResult :=
  try (response <- get ("/v1/collectors/" ++ ToString collector_id
                          ++ "/sources") ;;
       ret (text_result (JSON_stringify_2 response.(data))))
  catch (fun error => ret (error_result error)).

Definition get_source (collector_id source_id : value)
    : Async CallToolResult :=
  try (response <- get ("/v1/collectors/" ++ ToString collector_id
                          ++ "/sources/" ++ ToString source_id) ;;
       ret (text_result (JSON_stringify_2 response.(data))))
  catch (fun error => ret (error_result error)).

Definition create_http_source (collector_id name description category
    fields : value) : Async CallToolResult :=
  try (let sourceData := VObj [
         ("source", VObj [
            ("sourceType", VStr "HTTP");
            ("name", name);
            ("description", description);
            ("category", category);
            ("fields", fields);
            ("messagePerRequest", VBool false)])] in
       response <- post ("/v1/collectors/" ++ ToString collector_id
                           ++ "/sources") sourceData ;;
       ret (text_result (JSON_stringify_2 response.(data))))
  catch (fun error => ret (error_result error)).

Definition start_search_job (query from_time to_time time_zone : value)
    : Async CallToolResult :=
  try (let searchJobData := VObj [
         ("query", query);
         ("from", from_time);
         ("to", to_time);
         ("timeZone", or_else time_zone (VStr "UTC"))] in
       response <- post "/v1/search/jobs" searchJobData ;;
       ret (text_result (JSON_stringify_2 response.(data))))
  catch (fun error => ret (error_result error)).

Definition check_search_job_status (job_id : value) : Async CallToolResult :=
  try (response <- get ("/v1/search/jobs/" ++ ToString job_id) ;;
       ret (text_result (JSON_stringify_2 response.(data))))
  catch (fun error => ret (error_result error)).

Definition get_search_job_results (job_id limit offset : value)
    : Async CallToolResult :=
  try (let url := "/v1/search/jobs/" ++ ToString job_id ++ "/messages" in
       let params := [] in
       params <- lift (set_param "limit" limit params) ;;
       params <- lift (set_param "offset" offset params) ;;
       response <- get_params url params ;;
       ret (text_result (JSON_stringify_2 response.(data))))
  catch (fun error => ret (error_result error)).

Definition list_monitors : Async CallToolResult :=
  try (response <- get "/v1/monitors" ;;
       ret (text_result (JSON_stringify_2 response.(data))))
  catch (fun error => ret (error_result error)).

Definition get_monitor (monitor_id : value) : Async CallToolResult :=
  try (response <- get ("/v1/monitors/" ++ ToString monitor_id) ;;
       ret (text_result (JSON_stringify_2 response.(data))))
  catch (fun error => ret (error_result error)).

(** A zod schema of a parameter, without its [describe] text. *)
Inductive ZodType : Type :=
| z_string
| z_number
| z_record_string
| optional (t : ZodType).

(** One [server.tool(name, description, shape, handler)] registration;
    the handler destructures the argument object. *)
Record tool : Type := {
  name : string;
  description : string;
  shape : list (string * ZodType);
  handler : object -> Async CallToolResult
}.

Definition tools : list tool := [
  {| name := "check_connection";
     description := "Check if the SumoLogic API connection is working";
     shape := [];
     handler := fun _ => check_connection |};
  {| name := "list_collectors";
     description := "List all SumoLogic collectors";
     shape := [];
     handler := fun _ => list_collectors |};
  {| name := "get_collector";
     description := "Get a specific SumoLogic collector by ID";
     shape := [("collector_id", z_string)];
     handler := fun a => get_collector (lookup "collector_id" a) |};
  {| name := "create_hosted_collector";
     description := "Create a new hosted collector in SumoLogic";
     shape := [("name", z_string);
               ("description", optional z_string);
               ("category", optional z_string);
               ("fields", optional z_record_string)];
     handler := fun a =>
       create_hosted_collector (lookup "name" a) (lookup "description" a)
         (lookup "category" a) (lookup "fields" a) |};
  {| name := "update_collector";
     description := "Update an existing collector in SumoLogic";
     shape := [("collector_id", z_string);
               ("name", optional z_string);
               ("description", optional z_string);
               ("category", optional z_string);
               ("fields", optional z_record_string)];
     handler := fun a =>
       update_collector (lookup "collector_id" a) (lookup "name" a)
         (lookup "description" a) (lookup "category" a)
         (lookup "fields" a) |};
  {| name := "delete_collector";
     description := "Delete a SumoLogic collector by ID";
     shape := [("collector_id", z_string)];
     handler := fun a => delete_collector (lookup "collector_id" a) |};
  {| name := "list_sources";
     description := "List all sources in a specific SumoLogic collector";
     shape := [("collector_id", z_string)];
     handler := fun a => list_sources (lookup "collector_id" a) |};
  {| name := "get_source";
     description := "Get a specific source from a SumoLogic collector";
     shape := [("collector_id", z_string); ("source_id", z_string)];
     handler := fun a =>
       get_source (lookup "collector_id" a) (lookup "source_id" a) |};
  {| name := "create_http_source";
     description := "Create a new HTTP source in a SumoLogic collector";
     shape := [("collector_id", z_string);
               ("name", z_string);
               ("description", optional z_string);
               ("category", optional z_string);
               ("fields", optional z_record_string)];
     handler := fun a =>
       create_http_source (lookup "collector_id" a) (lookup "name" a)
         (lookup "description" a) (lookup "category" a)
         (lookup "fields" a) |};
  {| name := "start_search_job";
     description := "Start a search job in SumoLogic";
     shape := [("query", z_string);
               ("from_time", z_string);
               ("to_time", z_string);
               ("time_zone", optional z_string)];
     handler := fun a =>
       start_search_job (lookup "query" a) (lookup "from_time" a)
         (lookup "to_time" a) (lookup "time_zone" a) |};
  {| name := "check_search_job_status";
     description := "Check the status of a search job";
     shape := [("job_id", z_string)];
     handler := fun a => check_search_job_status (lookup "job_id" a) |};
  {| name := "get_search_job_results";
     description := "Get the results of a search job";
     shape := [("job_id", z_string);
               ("limit", optional z_number);
               ("offset", optional z_number)];
     handler := fun a =>
       get_search_job_results (lookup "job_id" a) (lookup "limit" a)
         (lookup "offset" a) |};
  {| name := "list_monitors";
     description := "List all monitors in SumoLogic";
     shape := [];
     handler := fun _ => list_monitors |};
  {| name := "get_monitor";
     description := "Get a specific monitor by ID";
     shape := [("monitor_id", z_string)];
     handler := fun a => get_monitor (lookup "monitor_id" a) |}
].

(** The top level of the file, in order: the credential check, the client,
    the server, the fourteen registrations, then [main()]. *)
Definition startup (e : Startup.env) (connected : bool)
    : list Startup.event :=
  if Startup.not_ (Startup.SUMOLOGIC_ACCESS_ID e)
     || Startup.not_ (Startup.SUMOLOGIC_ACCESS_KEY e)
  then [Startup.console_error Startup.credentials_missing;
        Startup.process_exit 1]
  else
    ([Startup.axios_create
        {| Startup.withCredentials := true;
           Startup.baseURL := Startup.SUMOLOGIC_API_ENDPOINT e;
           Startup.username := Startup.SUMOLOGIC_ACCESS_ID e;
           Startup.password := Startup.SUMOLOGIC_ACCESS_KEY e;
           Startup.default_headers :=
             [("Content-Type", "application/json");
              ("Accept", "application/json")] |};
      Startup.create_server "sumologic" "1.0.0"]
     ++ map (fun t => Startup.register_tool t.(name)) tools
     ++ Startup.main_tail connected)%list.

End ServerTool.

(* ================================================================== *)
(** ** The [sumoLogicTools] implementation (src/index.ts) *)

Module ToolsArray.
Import JS Axios.
Local Open Scope async_scope.

(** [handleApiError (error: any): string].  On an [Error] object the two
    reads are those of its [response] and [message] properties; on any
    other value they are ordinary property reads, which throw on
    [undefined] and [null]. *)
Definition handleApiError (error : thrown) : completion string :=
  match error with
  | AxiosError _ (Some response) =>
      Normal ("API Error: " ++ Number_toString response.(status) ++ " - "
                ++ template_of (JSON_stringify response.(data)))
  | AxiosError message None => Normal ("Error: " ++ message)
  | Error message => Normal ("Error: " ++ message)
  | NonError v =>
      response <~ Get v "response" ;;
      if truthy response
      then st <~ Get response "status" ;;
           d <~ Get response "data" ;;
           Normal ("API Error: " ++ ToString st ++ " - "
                     ++ template_of (JSON_stringify d))
      else m <~ Get v "message" ;;
           Normal ("Error: " ++ ToString m)
  end.

(** [throw new Error(handleApiError(error))], the catch branch of
    thirteen [execute] functions. *)
Definition rethrow {A} (error : thrown) : Async A :=
  message <- lift (handleApiError error) ;;
  throw (Error message).

Definition check_connection : Async value :=
  try (_ <- get "/v1/collectors" ;;
       ret (VObj [
         ("status", VStr "success");
         ("message", VStr "Connection to SumoLogic API successful")]))
  catch (fun error =>
       message <- lift (handleApiError error) ;;
       ret (VObj [
         ("status", VStr "error");
         ("message", VStr message)])).

Definition list_collectors : Async value :=
  try (response <- get "/v1/collectors" ;;
       ret response.(data))
  catch rethrow.

Definition get_collector (collector_id : value) : Async value :=
  try (response <- get ("/v1/collectors/" ++ ToString collector_id) ;;
       ret response.(data))
  catch rethrow.

Definition create_hosted_collector (name description category fields : value)
    : Async value :=
  try (let collectorData := VObj [
         ("collector", VObj [
            ("collectorType", VStr "Hosted");
            ("name", name);
            ("description", description);
            ("category", category);
            ("fields", fields)])] in
       response <- post "/v1/collectors" collectorData ;;
       ret response.(data))
  catch rethrow.

Definition update_collector (collector_id name description category
    fields : value) : Async value :=
  try (getResponse <- get ("/v1/collectors/" ++ ToString collector_id) ;;
       currentCollector <- lift (Get getResponse.(data) "collector") ;;
       let etag := header "etag" getResponse.(headers) in
       collector <- lift (merge_collector currentCollector name description
                            category fields) ;;
       let collectorData := VObj [("collector", VObj collector)] in
       response <- put ("/v1/collectors/" ++ ToString collector_id)
                     collectorData [("If-Match", etag)] ;;
       ret response.(data))
  catch rethrow.

Definition delete_collector (collector_id : value) : Async value :=
  try (_ <- delete ("/v1/collectors/" ++ ToString collector_id) ;;
       ret (VObj [
         ("status", VStr "success");
         ("message", VStr ("Collector " ++ ToString collector_id
                             ++ " deleted successfully"))]))
  catch rethrow.

Definition list_sources (collector_id : value) : Async value :=
  try (response <- get ("/v1/collectors/" ++ ToString collector_id
                          ++ "/sources") ;;
       ret response.(data))
  catch rethrow.

Definition get_source (collector_id source_id : value) : Async value :=
  try (response <- get ("/v1/collectors/" ++ ToString collector_id
                          ++ "/sources/" ++ ToString source_id) ;;
       ret response.(data))
  catch rethrow.

Definition create_http_source (collector_id name description category
    fields : value) : Async value :=
  try (let sourceData := VObj [
         ("source", VObj [
            ("sourceType", VStr "HTTP");
            ("name", name);
            ("description", description);
            ("category", category);
            ("fields", fields);
            ("messagePerRequest", VBool false)])] in
       response <- post ("/v1/collectors/" ++ ToString collector_id
                           ++ "/sources") sourceData ;;
       ret response.(data))
  catch rethrow.

Definition start_search_job (query from_time to_time time_zone : value)
    : Async value :=
  try (let searchJobData := VObj [
         ("query", query);
         ("from", from_time);
         ("to", to_time);
         ("timeZone", or_else time_zone (VStr "UTC"))] in
       response <- post "/v1/search/jobs" searchJobData ;;
       ret response.(data))
  catch rethrow.

Definition check_search_job_status (job_id : value) : Async value :=
  try (response <- get ("/v1/search/jobs/" ++ ToString job_id) ;;
       ret response.(data))
  catch rethrow.

Definition get_search_job_results (job_id limit offset : value)
    : Async value :=
  try (let url := "/v1/search/jobs/" ++ ToString job_id ++ "/messages" in
       let params := [] in
       params <- lift (set_param "limit" limit params) ;;
       params <- lift (set_param "offset" offset params) ;;
       response <- get_params url params ;;
       ret response.(data))
  catch rethrow.

Definition list_monitors : Async value :=
  try (response <- get "/v1/monitors" ;;
       ret response.(data))
  catch rethrow.

Definition get_monitor (monitor_id : value) : Async value :=
  try (response <- get ("/v1/monitors/" ++ ToString monitor_id) ;;
       ret response.(data))
  catch rethrow.

(** [McpToolParameter], without its [description] text. *)
Record McpToolParameter : Type := {
  param_name : string;
  type : string;
  required : bool
}.

(** [McpToolDefinition]; [execute] destructures the argument object. *)
Record McpToolDefinition : Type := {
  name : string;
  description : string;
  parameters : list McpToolParameter;
  execute : object -> Async value
}.

Definition param (n t : string) (r : bool) : McpToolParameter :=
  {| param_name := n; type := t; required := r |}.

Definition sumoLogicTools : list McpToolDefinition := [
  {| name := "check_connection";
     description := "Check if the SumoLogic API connection is working";
     parameters := [];
     execute := fun _ => check_connection |};
  {| name := "list_collectors";
     description := "List all SumoLogic collectors";
     parameters := [];
     execute := fun _ => list_collectors |};
  {| name := "get_collector";
     description := "Get a specific SumoLogic collector by ID";
     parameters := [param "collector_id" "string" true];
     execute := fun a => get_collector (lookup "collector_id" a) |};
  {| name := "create_hosted_collector";
     description := "Create a new hosted collector in SumoLogic";
     parameters := [param "name" "string" true;
                    param "description" "string" false;
                    param "category" "string" false;
                    param "fields" "object" false];
     execute := fun a =>
       create_hosted_collector (lookup "name" a) (lookup "description" a)
         (lookup "category" a) (lookup "fields" a) |};
  {| name := "update_collector";
     description := "Update an existing collector in SumoLogic";
     parameters := [param "collector_id" "string" true;
                    param "name" "string" false;
                    param "description" "string" false;
                    param "category" "string" false;
                    param "fields" "object" false];
     execute := fun a =>
       update_collector (lookup "collector_id" a) (lookup "name" a)
         (lookup "description" a) (lookup "category" a)
         (lookup "fields" a) |};
  {| name := "delete_collector";
     description := "Delete a SumoLogic collector by ID";
     parameters := [param "collector_id" "string" true];
     execute := fun a => delete_collector (lookup "collector_id" a) |};
  {| name := "list_sources";
     description := "List all sources in a specific SumoLogic collector";
     parameters := [param "collector_id" "string" true];
     execute := fun a => list_sources (lookup "collector_id" a) |};
  {| name := "get_source";
     description := "Get a specific source from a SumoLogic collector";
     parameters := [param "collector_id" "string" true;
                    param "source_id" "string" true];
     execute := fun a =>
       get_source (lookup "collector_id" a) (lookup "source_id" a) |};
  {| name := "create_http_source";
     description := "Create a new HTTP source in a SumoLogic collector";
     parameters := [param "collector_id" "string" true;
                    param "name" "string" true;
                    param "description" "string" false;
                    param "category" "string" false;
                    param "fields" "object" false];
     execute := fun a =>
       create_http_source (lookup "collector_id" a) (lookup "name" a)
         (lookup "description" a) (lookup "category" a)
         (lookup "fields" a) |};
  {| name := "start_search_job";
     description := "Start a search job in SumoLogic";
     parameters := [param "query" "string" true;
                    param "from_time" "string" true;
                    param "to_time" "string" true;
                    param "time_zone" "string" false];
     execute := fun a =>
       start_search_job (lookup "query" a) (lookup "from_time" a)
         (lookup "to_time" a) (lookup "time_zone" a) |};
  {| name := "check_search_job_status";
     description := "Check the status of a search job";
     parameters := [param "job_id" "string" true];
     execute := fun a => check_search_job_status (lookup "job_id" a) |};
  {| name := "get_search_job_results";
     description := "Get the results of a search job";
     parameters := [param "job_id" "string" true;
                    param "limit" "number" false;
                    param "offset" "number" false];
     execute := fun a =>
       get_search_job_results (lookup "job_id" a) (lookup "limit" a)
         (lookup "offset" a) |};
  {| name := "list_monitors";
     description := "List all monitors in SumoLogic";
     parameters := [];
     execute := fun _ => list_monitors |};
  {| name := "get_monitor";
     description := "Get a specific monitor by ID";
     parameters := [param "monitor_id" "string" true];
     execute := fun a => get_monitor (lookup "monitor_id" a) |}
].

(** The top level of the file, in order: the credential check and the
    client, then [main()], which creates the server and registers the
    tools of the array. *)
Definition startup (e : Startup.env) (connected : bool)
    : list Startup.event :=
  if Startup.not_ (Startup.SUMOLOGIC_ACCESS_ID e)
     || Startup.not_ (Startup.SUMOLOGIC_ACCESS_KEY e)
  then [Startup.console_error Startup.credentials_missing;
        Startup.process_exit 1]
  else
    ([Startup.axios_create
        {| Startup.withCredentials := false;
           Startup.baseURL := Startup.SUMOLOGIC_API_ENDPOINT e;
           Startup.username := Startup.SUMOLOGIC_ACCESS_ID e;
           Startup.password := Startup.SUMOLOGIC_ACCESS_KEY e;
           Startup.default_headers :=
             [("Content-Type", "application/json");
              ("Accept", "application/json")] |};
      Startup.create_server "sumologic" "1.0.0"]
     ++ map (fun t => Startup.register_tool t.(name)) sumoLogicTools
     ++ Startup.main_tail connected)%list.

End ToolsArray.

(* ================================================================== *)
(** ** The protocol runtime's dispatch *)

Module Adapter.
Import JS Axios.

(** What the runtime answers to one inbound invocation. *)
Inductive invocation (A : Type) : Type :=
| unknown_tool
| invalid_params
| handled (c : completion A).
Arguments unknown_tool {A}.
Arguments invalid_params {A}.
Arguments handled {A} c.

Definition is_required (t : ServerTool.ZodType) : bool :=
  match t with
  | ServerTool.optional _ => false
  | _ => true
  end.

(** Modelled from the spec: the validation the protocol runtime performs on
    an InvocationRequest, which is the imported SDK's and not code of this
    repository.  Section 3 has the request validated against the matching
    ToolDescriptor's schema before the handler body runs, required
    parameters present; the type checks of the schema are left out.  The
    schema is the [shape] the source registers. *)
Definition required_present (shape : list (string * ServerTool.ZodType))
    (args : object) : bool :=
  forallb (fun kt =>
             negb (is_required (snd kt))
             || negb (is_undefined (lookup (fst kt) args))) shape.

(** Modelled from the spec: one inbound invocation is bridged to one
    handler call (section 4.5), after the validation of section 3. *)
Definition call_tool (name : string) (args : object) (tr : transport)
    (log : list request)
    : invocation ServerTool.CallToolResult * list request :=
  match find (fun t => t.(ServerTool.name) =? name) ServerTool.tools with
  | None => (unknown_tool, log)
  | Some t =>
      if required_present t.(ServerTool.shape) args
      then let (c, log') := t.(ServerTool.handler) args tr log in
           (handled c, log')
      else (invalid_params, log)
  end.

(** Modelled from the spec: the same validation over the [parameters] of a
    [sumoLogicTools] entry, whose [required] flag the source sets. *)
Definition required_present_legacy
    (ps : list ToolsArray.McpToolParameter) (args : object) : bool :=
  forallb (fun p =>
             negb p.(ToolsArray.required)
             || negb (is_undefined (lookup p.(ToolsArray.param_name) args)))
          ps.

(** Modelled from the spec: dispatch over the [sumoLogicTools] array. *)
Definition call_tool_legacy (name : string) (args : object) (tr : transport)
    (log : list request) : invocation value * list request :=
  match find (fun t => t.(ToolsArray.name) =? name)
             ToolsArray.sumoLogicTools with
  | None => (unknown_tool, log)
  | Some t =>
      if required_present_legacy t.(ToolsArray.parameters) args
      then let (c, log') := t.(ToolsArray.execute) args tr log in
           (handled c, log')
      else (invalid_params, log)
  end.

End Adapter.

(* ================================================================== *)
(** ** The error normalizer of the specification *)

Module Spec.
Import JS.

(** The structured remote response an error carries, if any. *)
Definition remote_response (err : thrown) : option AxiosResponse :=
  match err with
  | AxiosError _ r => r
  | _ => None
  end.

(** The message an error carries, if any. *)
Definition message_of (err : thrown) : option string :=
  match err with
  | AxiosError m _ => Some m
  | Error m => Some m
  | NonError _ => None
  end.

(** Section 4.2, in the specification's words: a structured response
    first, else a message, else the generic text. *)
Definition normalize (err : thrown) : string :=
  match remote_response err with
  | Some r =>
      "API Error: " ++ Number_toString r.(status) ++ " - "
        ++ template_of (JSON_stringify r.(data))
  | None =>
      match message_of err with
      | Some m => "Error: " ++ m
      | None => "Unknown error occurred"
      end
  end.

End Spec.

(* ================================================================== *)
(** ** Requests, services and shapes the properties speak of *)

Import JS Axios.

(** The GET of [check_connection] and [list_collectors]. *)
Definition collectors_probe : request :=
  {| method := GET; url := "/v1/collectors"; body := VUndefined;
     req_headers := []; params := [] |}.

(** A dead network: every call is rejected without a response. *)
Definition network_down : transport :=
  fun _ _ => Reject "Network Error" None.

(** The GET of [get_search_job_results] with query parameters [ps]. *)
Definition messages_request (job_id : value) (ps : list (string * string))
    : request :=
  {| method := GET;
     url := "/v1/search/jobs/" ++ ToString job_id ++ "/messages";
     body := VUndefined; req_headers := []; params := ps |}.

(** What the claim asks of the POST of [create_hosted_collector]. *)
Definition hosted_web_logs (q : request) : Prop :=
  q.(method) = POST
  /\ q.(url) = "/v1/collectors"
  /\ (exists c,
        Get q.(body) "collector" = Normal (VObj c)
        /\ lookup "collectorType" c = VStr "Hosted"
        /\ lookup "name" c = VStr "web-logs"
        /\ lookup "description" c = VUndefined
        /\ lookup "category" c = VUndefined
        /\ lookup "fields" c = VUndefined)
  /\ JSON_stringify q.(body)
     = JSON_stringify (VObj [("collector", VObj [
         ("collectorType", VStr "Hosted");
         ("name", VStr "web-logs")])]).

(** The literal the source falls back to for the base URL. *)
Definition default_endpoint : string := "https://api.sumologic.com/api".

(** The trace of a start-up that dies on the credential check. *)
Definition fatal_exit : list Startup.event :=
  [Startup.console_error Startup.credentials_missing;
   Startup.process_exit 1].

(** The base URL handed to [axios.create], when the start-up gets there. *)
Definition configured_baseURL (trace : list Startup.event)
    : option string :=
  match trace with
  | Startup.axios_create cfg :: _ => Some cfg.(Startup.baseURL)
  | _ => None
  end.

(** Both credentials are set and not empty. *)
Definition credentials_present (e : Startup.env) : Prop :=
  Startup.SUMOLOGIC_ACCESS_ID e <> "" /\ Startup.SUMOLOGIC_ACCESS_KEY e <> "".

(** An environment with no variable set. *)
Definition empty_env : Startup.env := fun _ => None.

(** An environment with the two credentials and no endpoint. *)
Definition credentials_only : Startup.env :=
  fun x =>
    if x =? "SUMOLOGIC_ACCESS_ID" then Some "id"
    else if x =? "SUMOLOGIC_ACCESS_KEY" then Some "key"
    else None.

(** What the literal of [update_collector] builds from a fetched collector
    that is an object. *)
Definition merged (o : object) (name description category fields : value)
    : object :=
  define_property "fields" (or_else fields (lookup "fields" o))
    (define_property "category" (or_else category (lookup "category" o))
      (define_property "description"
         (if is_undefined description then lookup "description" o
          else description)
        (define_property "name" (or_else name (lookup "name" o)) o))).

(** The fetch of [update_collector] (and the GET of [get_collector]). *)
Definition collector_get (collector_id : value) : request :=
  {| method := GET; url := "/v1/collectors/" ++ ToString collector_id;
     body := VUndefined; req_headers := []; params := [] |}.

(** The conditional write of [update_collector]. *)
Definition collector_put (collector_id : value) (collector : object)
    (etag : value) : request :=
  {| method := PUT; url := "/v1/collectors/" ++ ToString collector_id;
     body := VObj [("collector", VObj collector)];
     req_headers := [("If-Match", etag)]; params := [] |}.

(** The fetched collector of section 8. *)
Definition fetched_A : object :=
  [("name", VStr "A"); ("description", VStr "d"); ("category", VStr "c")].

(** A remote service on which every collector is [fetched_A] under the tag
    "v1" and every write is accepted. *)
Definition serves_A : transport :=
  fun _ q =>
    match q.(method) with
    | GET => Resolve {| status := 200; headers := [("etag", "v1")];
                        data := VObj [("collector", VObj fetched_A)] |}
    | _ => Resolve {| status := 200; headers := []; data := VObj [] |}
    end.

(** The response to a write whose tag is no longer current. *)
Definition conflict : AxiosResponse :=
  {| status := 412; headers := [];
     data := VObj [("message", VStr "precondition failed")] |}.

(** [serves_A] with a concurrent writer: by the time of the PUT the tag is
    stale, and the PUT fails with 412 Precondition Failed. *)
Definition stale_tag : transport :=
  fun log q =>
    match q.(method) with
    | PUT => Reject "Request failed with status code 412" (Some conflict)
    | _ => serves_A log q
    end.

(** A handler answers every failure of its remote calls with the
    error-flagged normalized text, and never completes abruptly. *)
Definition flags_failures (h : Async ServerTool.CallToolResult) : Prop :=
  forall tr,
    exists r,
      fst (run h tr) = Normal r
      /\ forall e,
           In e (rejections tr [] (snd (run h tr))) ->
           r = ServerTool.error_result e.

(** An [execute] of src/index.ts answers every failure of its remote calls
    by rejecting with an [Error] whose message is the normalized text. *)
Definition rejects_on_failures (h : Async value) : Prop :=
  forall tr e,
    In e (rejections tr [] (snd (run h tr))) ->
    exists message,
      ToolsArray.handleApiError e = Normal message
      /\ fst (run h tr) = Throw (Error message).

(** The first registration of the [server.tool] file. *)
Definition check_connection_tool : ServerTool.tool :=
  {| ServerTool.name := "check_connection";
     ServerTool.description :=
       "Check if the SumoLogic API connection is working";
     ServerTool.shape := [];
     ServerTool.handler := fun _ => ServerTool.check_connection |}.

(** Its third registration. *)
Definition get_collector_tool : ServerTool.tool :=
  {| ServerTool.name := "get_collector";
     ServerTool.description := "Get a specific SumoLogic collector by ID";
     ServerTool.shape := [("collector_id", ServerTool.z_string)];
     ServerTool.handler :=
       fun a => ServerTool.get_collector (lookup "collector_id" a) |}.

(** [{ content: [{ type: 'text', text: message }], isError: true }]. *)
Definition flagged (message : string) : ServerTool.CallToolResult :=
  {| ServerTool.content :=
       [ {| ServerTool.type := "text"; ServerTool.text := Some message |} ];
     ServerTool.isError := Some true |}.

(** How a [server.tool] handler presents what the [execute] of the same
    tool completes with: the returned value as the text of an unflagged
    result, the message of a rejection as the text of a flagged one. *)
Definition as_result (stringify : value -> option string)
    (c : completion value) : completion ServerTool.CallToolResult :=
  match c with
  | Normal v => Normal (ServerTool.text_result (stringify v))
  | Throw (Error message) => Normal (flagged message)
  | Throw e => Throw e
  end.

(** The [JSON.stringify] call of a handler's success branch: without
    indentation in [check_connection] and [delete_collector], with
    [null, 2] in the twelve others. *)
Definition stringify_of (name : string) : value -> option string :=
  if (name =? "check_connection") || (name =? "delete_collector")
  then JSON_stringify
  else JSON_stringify_2.

(** An [Error] object, as opposed to any other thrown value. *)
Definition is_Error (e : thrown) : bool :=
  match e with
  | AxiosError _ _ | Error _ => true
  | NonError _ => false
  end.

(** The properties a [JSON.stringify] keeps: those that are not
    [undefined]. *)
Definition defined_properties (o : object) : object :=
  filter (fun kv => negb (is_undefined (snd kv))) o.

(** The names of the tools whose handler only reads. *)
Definition read_only : list string :=
  ["check_connection"; "list_collectors"; "get_collector"; "list_sources";
   "get_source"; "check_search_job_status"; "get_search_job_results";
   "list_monitors"; "get_monitor"].

(** The requests of the handlers other than [update_collector]. *)
Definition request_of (m : Method) (u : string) (d : value) : request :=
  {| method := m; url := u; body := d; req_headers := []; params := [] |}.

(** The body [start_search_job] posts. *)
Definition search_job_body (query from_time to_time timeZone : value)
    : value :=
  VObj [("query", query); ("from", from_time); ("to", to_time);
        ("timeZone", timeZone)].

(** The parameter names a schema requires, in order. *)
Definition required_names (shape : list (string * ServerTool.ZodType))
    : list string :=
  map fst (filter (fun kt => Adapter.is_required (snd kt)) shape).

Definition required_names_legacy (ps : list ToolsArray.McpToolParameter)
    : list string :=
  map ToolsArray.param_name (filter ToolsArray.required ps).

(** A remote service that accepts everything and answers with an empty
    object. *)
Definition accepts_all : transport :=
  fun _ _ => Resolve {| status := 200; headers := []; data := VObj [] |}.

(** An environment with every variable set. *)
Definition full_env : Startup.env :=
  fun x =>
    if x =? "SUMOLOGIC_ACCESS_ID" then Some "id"
    else if x =? "SUMOLOGIC_ACCESS_KEY" then Some "key"
    else if x =? "SUMOLOGIC_API_ENDPOINT"
         then Some "https://api.us2.sumologic.com/api"
    else None.

(** The third entry of the [sumoLogicTools] array. *)
Definition get_collector_definition : ToolsArray.McpToolDefinition :=
  {| ToolsArray.name := "get_collector";
     ToolsArray.description := "Get a specific SumoLogic collector by ID";
     ToolsArray.parameters := [ToolsArray.param "collector_id" "string" true];
     ToolsArray.execute :=
       fun a => ToolsArray.get_collector (lookup "collector_id" a) |}.

(** A numeric argument that may be left out. *)
Definition number_or_undefined (n : option Z) : value :=
  match n with
  | Some n => VNum n
  | None => VUndefined
  end.

(** The query parameter a supplied number gives. *)
Definition param_of (k : string) (n : option Z) : list (string * string) :=
  match n with
  | Some n => [(k, Number_toString n)]
  | None => []
  end.

(** The tool names a start-up registered, in order. *)
Definition registered (trace : list Startup.event) : list string :=
  flat_map (fun ev => match ev with
                      | Startup.register_tool n => [n]
                      | _ => []
                      end) trace.

Definition is_exit (ev : Startup.event) : bool :=
  match ev with
  | Startup.process_exit _ => true
  | _ => false
  end.

(** The client a start-up created, if it got there. *)
Definition created_client (trace : list Startup.event)
    : option Startup.client_config :=
  match trace with
  | Startup.axios_create cfg :: _ => Some cfg
  | _ => None
  end.

(** [Number.isSafeInteger]: where [Number_toString] is exact. *)
Definition safe_integer (n : Z) : Prop :=
  (Z.abs n <= 9007199254740991)%Z.


(** A numeric argument that is left out or a safe integer. *)
Definition safe_argument (n : option Z) : Prop :=
  match n with
  | Some n => safe_integer n
  | None => True
  end.

(** The four properties the literal of [update_collector] sets, in its
    order. *)
Definition managed_keys : list string :=
  ["name"; "description"; "category"; "fields"].

(** Those of them a fetched collector lacks. *)
Definition absent_keys (o : object) : list string :=
  filter (fun k => negb (existsb (String.eqb k) (map fst o))) managed_keys.

(** The text of the 412 that [stale_tag] answers a PUT with. *)
Definition conflict_text : string :=
  Spec.normalize
    (AxiosError "Request failed with status code 412" (Some conflict)).

(* ================================================================== *)
(** * Properties *)

(** Unfolds the monad of [async] bodies down to the transport. *)
Ltac run_async :=
  unfold run, try_catch, bind, ret, throw, lift, get, get_params, post, put,
    delete, send.

(** Splits on the next thing an [async] body waits for or may throw on. *)
Ltac next_outcome :=
  match goal with
  | |- context [match ?t ?l ?q with Resolve _ => _ | Reject _ _ => _ end] =>
      destruct (t l q) eqn:?
  | |- context [match Get ?v ?k with Normal _ => _ | Throw _ => _ end] =>
      destruct (Get v k) eqn:?
  | |- context [match merge_collector ?c ?n ?d ?g ?f with
                | Normal _ => _ | Throw _ => _ end] =>
      destruct (merge_collector c n d g f) eqn:?
  | |- context [match set_param ?k ?v ?p with Normal _ => _ | Throw _ => _ end] =>
      destruct (set_param k v p) eqn:?
  end.

(** ** The error normalizer *)

Lemma handleApiError_normalize (error : thrown) :
  ServerTool.handleApiError error = Spec.normalize error.
Proof.
  destruct error as [m [r|] | m | v]; reflexivity.
Qed.

(** On every [Error] object the normalizer of src/index.ts returns what
    the one of the [server.tool] file returns. *)
Lemma legacy_handleApiError_on_errors (error : thrown) :
  Spec.message_of error <> None ->
  ToolsArray.handleApiError error = Normal (ServerTool.handleApiError error).
Proof.
  destruct error as [m [r|] | m | v]; simpl; intros H;
    try reflexivity; congruence.
Qed.

(** On a thrown value that is no [Error] object the normalizer of
    src/index.ts has no generic text: it reads [message] off the value,
    and throws on [null]. *)
Example legacy_handleApiError_thrown_string :
  ToolsArray.handleApiError (NonError (VStr "boom"))
  = Normal "Error: undefined".
Proof. reflexivity. Qed.

Example legacy_handleApiError_thrown_null :
  ToolsArray.handleApiError (NonError VNull)
  = Throw (Error "Cannot read properties of null (reading 'response')").
Proof. reflexivity. Qed.

(** Section 8 of the specification: a 404 with body [{error: 'not found'}]
    gives a text with the status and the serialized body. *)
Example handleApiError_404 :
  ServerTool.handleApiError
    (AxiosError "Request failed with status code 404"
       (Some {| status := 404; headers := [];
                data := VObj [("error", VStr "not found")] |}))
  = "API Error: 404 - {" ++ dquote ++ "error" ++ dquote ++ ":"
      ++ dquote ++ "not found" ++ dquote ++ "}".
Proof. reflexivity. Qed.




(** ** check_connection *)

(** C10. Whatever the transport does, [check_connection] completes
    normally with a result whose [isError] is not set and issues the one
    probe; when the probe is rejected the text is the JSON of
    [{status: 'error', message: handleApiError(error)}], and when it
    resolves the text is the JSON of the success payload.  The
    [check_connection] of src/index.ts returns the status payload as well,
    and never rejects. *)
Theorem check_connection_never_flagged (tr : transport) :
  (exists r,
     run ServerTool.check_connection tr = (Normal r, [collectors_probe])
     /\ r.(ServerTool.isError) = None)
  /\ (forall message response,
        tr [] collectors_probe = Reject message response ->
        fst (run ServerTool.check_connection tr)
        = Normal (ServerTool.text_result (JSON_stringify (VObj [
            ("status", VStr "error");
            ("message", VStr (ServerTool.handleApiError
                                (AxiosError message response)))]))))
  /\ (forall r,
        tr [] collectors_probe = Resolve r ->
        fst (run ServerTool.check_connection tr)
        = Normal (ServerTool.text_result (JSON_stringify (VObj [
            ("status", VStr "success");
            ("message", VStr "Connection to SumoLogic API successful")]))))
  /\ (exists v,
        run ToolsArray.check_connection tr = (Normal v, [collectors_probe]))
  /\ (forall message response,
        tr [] collectors_probe = Reject message response ->
        fst (run ToolsArray.check_connection tr)
        = Normal (VObj [
            ("status", VStr "error");
            ("message", VStr (Spec.normalize
                                (AxiosError message response)))])).
Proof.
  unfold ServerTool.check_connection, ToolsArray.check_connection,
    collectors_probe.
  run_async.
  destruct (tr [] _) as [r | m [resp |]] eqn:E;
    repeat match goal with |- _ /\ _ => split end;
    try (eexists; split; reflexivity);
    try (eexists; reflexivity);
    try (intros; discriminate);
    try (intros; reflexivity);
    intros message' response' H; inversion H; subst; reflexivity.
Qed.

Lemma check_connection_never_flagged_witness :
  fst (run ServerTool.check_connection network_down)
  = Normal (ServerTool.text_result (JSON_stringify (VObj [
      ("status", VStr "error");
      ("message", VStr "Error: Network Error")]))).
Proof.
  exact (proj1 (proj2 (check_connection_never_flagged network_down))
           "Network Error" None eq_refl).
Defined.

(** ** get_search_job_results *)

Lemma set_param_number (k : string) (n : Z) (ps : list (string * string)) :
  set_param k (VNum n) ps = Normal (ps ++ [(k, Number_toString n)])%list.
Proof. reflexivity. Qed.

Lemma set_param_undefined (k : string) (ps : list (string * string)) :
  set_param k VUndefined ps = Normal ps.
Proof. reflexivity. Qed.

(** C6. With [limit = 50] and [offset = 0] the one GET of
    [get_search_job_results] carries the query parameters
    [limit = "50"] and [offset = "0"], both strings and the zero offset
    included; with neither supplied it carries no query parameter.  Both
    files behave so, for every job id and transport. *)
Theorem get_search_job_results_params (job_id : value) (tr : transport) :
  snd (run (ServerTool.get_search_job_results job_id (VNum 50) (VNum 0)) tr)
  = [messages_request job_id [("limit", "50"); ("offset", "0")]]
  /\ snd (run (ServerTool.get_search_job_results job_id VUndefined
                 VUndefined) tr)
     = [messages_request job_id []]
  /\ snd (run (ToolsArray.get_search_job_results job_id (VNum 50) (VNum 0))
            tr)
     = [messages_request job_id [("limit", "50"); ("offset", "0")]]
  /\ snd (run (ToolsArray.get_search_job_results job_id VUndefined
                 VUndefined) tr)
     = [messages_request job_id []].
Proof.
  unfold ServerTool.get_search_job_results,
    ToolsArray.get_search_job_results, ToolsArray.rethrow, messages_request.
  run_async.
  rewrite !set_param_number, !set_param_undefined.
  cbn [app Number_toString].
  repeat split.
  - destruct (tr [] _); reflexivity.
  - destruct (tr [] _); reflexivity.
  - destruct (tr [] _) as [r | m [r|]]; reflexivity.
  - destruct (tr [] _) as [r | m [r|]]; reflexivity.
Qed.

(** ** create_hosted_collector *)

(** C7. Given only [name = "web-logs"], [create_hosted_collector] issues
    exactly one call, a POST to /v1/collectors, whose body has
    [collector.collectorType] equal to "Hosted", [collector.name] equal to
    "web-logs", and [description], [category] and [fields] undefined, so
    absent from the JSON sent.  Both files behave so, for every
    transport. *)
Theorem create_hosted_collector_name_only (tr : transport) :
  (exists q,
     snd (run (ServerTool.create_hosted_collector (VStr "web-logs")
                 VUndefined VUndefined VUndefined) tr) = [q]
     /\ hosted_web_logs q)
  /\ (exists q,
        snd (run (ToolsArray.create_hosted_collector (VStr "web-logs")
                    VUndefined VUndefined VUndefined) tr) = [q]
        /\ hosted_web_logs q).
Proof.
  unfold ServerTool.create_hosted_collector,
    ToolsArray.create_hosted_collector, ToolsArray.rethrow, hosted_web_logs.
  run_async.
  split.
  - destruct (tr [] _); eexists; (split; [reflexivity | ]);
      cbn [method url body Get lookup String.eqb Ascii.eqb Bool.eqb];
      repeat split; eexists; repeat split.
  - destruct (tr [] _) as [r | m [r|]]; eexists; (split; [reflexivity | ]);
      cbn [method url body Get lookup String.eqb Ascii.eqb Bool.eqb];
      repeat split; eexists; repeat split.
Qed.

(** ** Start-up *)

Lemma env_or_unset (e : Startup.env) (x d : string) :
  e x = None -> Startup.env_or e x d = d.
Proof. unfold Startup.env_or; intros ->; reflexivity. Qed.

(** C8. When either credential variable is absent, the start-up of each
    file is the error message followed by [process.exit(1)] and nothing
    else: no client is created, no tool is registered, the server is not
    connected.  When the credentials are there and the endpoint variable
    is unset, the client is created with the base URL
    https://api.sumologic.com/api. *)
Theorem startup_credentials_and_endpoint (e : Startup.env)
    (connected : bool) :
  (e "SUMOLOGIC_ACCESS_ID" = None \/ e "SUMOLOGIC_ACCESS_KEY" = None ->
   ServerTool.startup e connected = fatal_exit
   /\ ToolsArray.startup e connected = fatal_exit
   /\ (forall n, ~ In (Startup.register_tool n) fatal_exit)
   /\ ~ In Startup.connect fatal_exit)
  /\ (e "SUMOLOGIC_API_ENDPOINT" = None ->
      Startup.SUMOLOGIC_API_ENDPOINT e = default_endpoint
      /\ (credentials_present e ->
          configured_baseURL (ServerTool.startup e connected)
          = Some default_endpoint
          /\ configured_baseURL (ToolsArray.startup e connected)
             = Some default_endpoint)).
Proof.
  split.
  - intros H.
    assert (Hm : Startup.not_ (Startup.SUMOLOGIC_ACCESS_ID e)
                 || Startup.not_ (Startup.SUMOLOGIC_ACCESS_KEY e) = true).
    { unfold Startup.SUMOLOGIC_ACCESS_ID, Startup.SUMOLOGIC_ACCESS_KEY.
      destruct H as [H | H]; rewrite (env_or_unset e _ _ H);
        [reflexivity | apply orb_true_r]. }
    unfold ServerTool.startup, ToolsArray.startup. rewrite Hm.
    repeat split; unfold fatal_exit; simpl; intuition discriminate.
  - intros H.
    assert (Hd : Startup.SUMOLOGIC_API_ENDPOINT e = default_endpoint)
      by (apply env_or_unset; exact H).
    split; [exact Hd | ].
    intros [Hid Hkey].
    unfold ServerTool.startup, ToolsArray.startup, Startup.not_.
    apply String.eqb_neq in Hid, Hkey. rewrite Hid, Hkey.
    cbn [orb app configured_baseURL Startup.baseURL].
    rewrite Hd. split; reflexivity.
Qed.

Lemma startup_credentials_and_endpoint_witness :
  ServerTool.startup empty_env true = fatal_exit
  /\ configured_baseURL (ServerTool.startup credentials_only true)
     = Some default_endpoint.
Proof.
  split.
  - exact (proj1 (proj1 (startup_credentials_and_endpoint empty_env true)
                    (or_introl eq_refl))).
  - refine (proj1 (proj2 (proj2 (startup_credentials_and_endpoint
                                   credentials_only true) eq_refl) _)).
    split; vm_compute; discriminate.
Defined.

(** An empty credential counts as a missing one. *)
Example startup_empty_credential :
  ServerTool.startup
    (fun x => if x =? "SUMOLOGIC_ACCESS_ID" then Some "" else Some "key")
    true
  = fatal_exit.
Proof. reflexivity. Qed.

(** ** update_collector *)

Lemma lookup_define_property (k k' : string) (v : value) (o : object) :
  lookup k (define_property k' v o) = if k' =? k then v else lookup k o.
Proof.
  induction o as [| [k0 v0] o IH]; simpl.
  - destruct (k' =? k); reflexivity.
  - destruct (k0 =? k') eqn:E0; simpl.
    + apply String.eqb_eq in E0; subst k0.
      destruct (k' =? k); reflexivity.
    + destruct (k0 =? k) eqn:E1.
      * apply String.eqb_eq in E1; subst k0.
        rewrite String.eqb_sym, E0. reflexivity.
      * exact IH.
Qed.

(** On a fetched collector that is an object no read can throw, and the
    literal builds [merged]. *)
Lemma merge_collector_object (o : object)
    (name description category fields : value) :
  merge_collector (VObj o) name description category fields
  = Normal (merged o name description category fields).
Proof.
  unfold merge_collector, merged, or_else, and_then. cbn [Get spread].
  destruct (truthy name), (is_undefined description), (truthy category),
    (truthy fields); reflexivity.
Qed.

Lemma lookup_merged (o : object) (name description category fields : value)
    (k : string) :
  lookup k (merged o name description category fields)
  = if "fields" =? k then or_else fields (lookup "fields" o)
    else if "category" =? k then or_else category (lookup "category" o)
    else if "description" =? k
         then (if is_undefined description then lookup "description" o
               else description)
    else if "name" =? k then or_else name (lookup "name" o)
    else lookup k o.
Proof. unfold merged. rewrite !lookup_define_property. reflexivity. Qed.

(** When the fetch resolves and the merge completes, both files issue the
    GET and then the PUT of the merged collector under the fetched tag. *)
Lemma update_collector_log (collector_id name description category
    fields : value) (tr : transport) (r : AxiosResponse)
    (cur : value) (m : object) :
  tr [] (collector_get collector_id) = Resolve r ->
  Get r.(data) "collector" = Normal cur ->
  merge_collector cur name description category fields = Normal m ->
  let put := collector_put collector_id m (header "etag" r.(headers)) in
  snd (run (ServerTool.update_collector collector_id name description
              category fields) tr)
  = [collector_get collector_id; put]
  /\ snd (run (ToolsArray.update_collector collector_id name description
                 category fields) tr)
     = [collector_get collector_id; put].
Proof.
  intros Hget Hcur Hm put. subst put.
  unfold ServerTool.update_collector, ToolsArray.update_collector,
    ToolsArray.rethrow, collector_put.
  unfold collector_get in *. run_async.
  rewrite Hget. cbv beta iota. rewrite Hcur. cbv beta iota.
  rewrite Hm. cbv beta iota. cbn [app].
  split.
  - next_outcome; reflexivity.
  - next_outcome; [ | destruct response ]; reflexivity.
Qed.

(** C1, as the claim words it, fails: the body of the PUT is not the
    object [{name: 'B', description: 'd', category: 'c'}]; the collector
    travels under a [collector] key, and the JSON sent differs too. *)
Lemma update_collector_body_is_wrapped :
  exists put,
    snd (run (ServerTool.update_collector (VStr "123") (VStr "B") VUndefined
                VUndefined VUndefined) serves_A)
    = [collector_get (VStr "123"); put]
    /\ put.(body) <> VObj [("name", VStr "B"); ("description", VStr "d");
                           ("category", VStr "c")]
    /\ JSON_stringify put.(body)
       <> JSON_stringify (VObj [("name", VStr "B");
                                ("description", VStr "d");
                                ("category", VStr "c")]).
Proof.
  eexists. split; [reflexivity | ]. split.
  - cbn [body]. discriminate.
  - vm_compute. discriminate.
Qed.

(** C1, amended. When the fetch returns data whose [collector] is
    [{name: 'A', description: 'd', category: 'c'}] under the ETag "v1" and
    the caller supplies only [name = 'B'], both files issue the GET and
    then exactly one PUT; its body is [{collector: C}] with [C] the fetched
    collector with [name] replaced by 'B', [description] 'd' and [category]
    'c' unchanged and a [fields] property that is undefined, which the
    JSON sent omits; its If-Match header is "v1". *)
Theorem update_collector_name_only (collector_id : value) (tr : transport)
    (r : AxiosResponse) :
  tr [] (collector_get collector_id) = Resolve r ->
  Get r.(data) "collector" = Normal (VObj fetched_A) ->
  header "etag" r.(headers) = VStr "v1" ->
  exists put,
    snd (run (ServerTool.update_collector collector_id (VStr "B") VUndefined
                VUndefined VUndefined) tr)
    = [collector_get collector_id; put]
    /\ snd (run (ToolsArray.update_collector collector_id (VStr "B")
                   VUndefined VUndefined VUndefined) tr)
       = [collector_get collector_id; put]
    /\ put.(method) = PUT
    /\ put.(url) = "/v1/collectors/" ++ ToString collector_id
    /\ put.(body)
       = VObj [("collector", VObj [("name", VStr "B");
                                   ("description", VStr "d");
                                   ("category", VStr "c");
                                   ("fields", VUndefined)])]
    /\ JSON_stringify put.(body)
       = JSON_stringify (VObj [("collector", VObj [
           ("name", VStr "B");
           ("description", VStr "d");
           ("category", VStr "c")])])
    /\ put.(req_headers) = [("If-Match", VStr "v1")].
Proof.
  intros Hget Hcur Htag.
  destruct (update_collector_log collector_id (VStr "B") VUndefined
              VUndefined VUndefined tr Hget Hcur
              (merge_collector_object fetched_A _ _ _ _)) as [HB HA].
  rewrite Htag in HB, HA.
  eexists. split; [exact HB | ]. split; [exact HA | ].
  repeat split.
Qed.

Lemma update_collector_name_only_witness :
  exists put,
    snd (run (ServerTool.update_collector (VStr "123") (VStr "B") VUndefined
                VUndefined VUndefined) serves_A)
    = [collector_get (VStr "123"); put]
    /\ put.(req_headers) = [("If-Match", VStr "v1")].
Proof.
  destruct (update_collector_name_only (VStr "123") serves_A
              (r := {| status := 200; headers := [("etag", "v1")];
                       data := VObj [("collector", VObj fetched_A)] |})
              eq_refl eq_refl eq_refl)
    as [put [HB [_ [_ [_ [_ [_ Hh]]]]]]].
  exists put. split; [exact HB | exact Hh].
Defined.

(** C2. In the merge of [update_collector] on a fetched collector object,
    [description] takes the supplied value whenever that is not undefined
    (the empty string included), while [name], [category] and [fields]
    take the supplied value only when it is truthy and keep the fetched
    one otherwise (so a supplied empty [name] or [category], or a falsy
    [fields], is not written); every other property is the fetched one.
    The merged object is the body, under [collector], of the one PUT both
    files issue. *)
Theorem update_collector_merge (collector_id name description category
    fields : value) (tr : transport) (r : AxiosResponse) (o : object) :
  tr [] (collector_get collector_id) = Resolve r ->
  Get r.(data) "collector" = Normal (VObj o) ->
  exists m,
    merge_collector (VObj o) name description category fields = Normal m
    /\ snd (run (ServerTool.update_collector collector_id name description
                   category fields) tr)
       = [collector_get collector_id;
          collector_put collector_id m (header "etag" r.(headers))]
    /\ snd (run (ToolsArray.update_collector collector_id name description
                   category fields) tr)
       = [collector_get collector_id;
          collector_put collector_id m (header "etag" r.(headers))]
    /\ lookup "description" m
       = (if is_undefined description then lookup "description" o
          else description)
    /\ (description = VStr "" -> lookup "description" m = VStr "")
    /\ lookup "name" m = (if truthy name then name else lookup "name" o)
    /\ lookup "category" m
       = (if truthy category then category else lookup "category" o)
    /\ lookup "fields" m
       = (if truthy fields then fields else lookup "fields" o)
    /\ (name = VStr "" -> lookup "name" m = lookup "name" o)
    /\ (category = VStr "" -> lookup "category" m = lookup "category" o)
    /\ (truthy fields = false -> lookup "fields" m = lookup "fields" o)
    /\ (forall k,
          k <> "name" -> k <> "description" -> k <> "category" ->
          k <> "fields" -> lookup k m = lookup k o).
Proof.
  intros Hget Hcur.
  pose proof (merge_collector_object o name description category fields)
    as Hm.
  destruct (update_collector_log collector_id name description category
              fields tr Hget Hcur Hm) as [HB HA].
  exists (merged o name description category fields).
  split; [exact Hm | ]. split; [exact HB | ]. split; [exact HA | ].
  rewrite !lookup_merged. cbn [String.eqb Ascii.eqb Bool.eqb].
  split; [reflexivity | ].
  split; [intros ->; reflexivity | ].
  split; [reflexivity | ]. split; [reflexivity | ]. split; [reflexivity | ].
  split; [intros ->; reflexivity | ].
  split; [intros ->; reflexivity | ].
  split; [intros Hfalse; unfold or_else; rewrite Hfalse; reflexivity | ].
  intros k H1 H2 H3 H4.
  rewrite lookup_merged.
  apply String.eqb_neq in H1, H2, H3, H4.
  rewrite (String.eqb_sym "fields" k), (String.eqb_sym "category" k),
    (String.eqb_sym "description" k), (String.eqb_sym "name" k).
  rewrite H1, H2, H3, H4. reflexivity.
Qed.

(** Empty strings for all three texts against [fetched_A]: only the
    description is written empty. *)
Lemma update_collector_merge_witness :
  exists m,
    snd (run (ServerTool.update_collector (VStr "123") (VStr "") (VStr "")
                (VStr "") VUndefined) serves_A)
    = [collector_get (VStr "123");
       collector_put (VStr "123") m (VStr "v1")]
    /\ lookup "name" m = VStr "A"
    /\ lookup "description" m = VStr ""
    /\ lookup "category" m = VStr "c".
Proof.
  destruct (update_collector_merge (VStr "123") (VStr "") (VStr "")
              (VStr "") VUndefined serves_A
              (r := {| status := 200; headers := [("etag", "v1")];
                       data := VObj [("collector", VObj fetched_A)] |})
              (o := fetched_A) eq_refl eq_refl)
    as [m [_ [HB [_ [_ [Hd [_ [_ [_ [Hn [Hc _]]]]]]]]]]].
  exists m. split; [exact HB | ].
  split; [exact (Hn eq_refl) | ].
  split; [exact (Hd eq_refl) | exact (Hc eq_refl)].
Defined.

(** Runs an [async] body to its end, one outcome at a time. *)
Ltac run_to_end :=
  run_async; cbv beta iota;
  repeat (next_outcome; cbv beta iota);
  cbn [fst snd app] in *.

(** The two ways [update_collector] can go: it stops after the GET with an
    error result, or it issues the PUT and returns what the PUT gives. *)
Lemma update_collector_shape (collector_id name description category
    fields : value) (tr : transport) :
  let result := run (ServerTool.update_collector collector_id name
                       description category fields) tr in
  (snd result = [collector_get collector_id]
   /\ exists e, fst result = Normal (ServerTool.error_result e))
  \/ (exists m etag,
        let put := collector_put collector_id m etag in
        snd result = [collector_get collector_id; put]
        /\ match tr [collector_get collector_id] put with
           | Resolve r =>
               fst result
               = Normal (ServerTool.text_result (JSON_stringify_2 r.(data)))
           | Reject message response =>
               fst result
               = Normal (ServerTool.error_result
                           (AxiosError message response))
           end).
Proof.
  unfold ServerTool.update_collector, collector_get, collector_put.
  run_to_end;
    try (left; split; [reflexivity | eexists; reflexivity]);
    right; eexists; eexists; cbv zeta; (split; [reflexivity | ]);
    match goal with
    | H : tr _ _ = _ |- context [match tr _ _ with _ => _ end] => rewrite H
    end; reflexivity.
Qed.

Lemma legacy_update_collector_shape (collector_id name description category
    fields : value) (tr : transport) :
  let result := run (ToolsArray.update_collector collector_id name
                       description category fields) tr in
  (snd result = [collector_get collector_id]
   /\ exists e, fst result = Throw e)
  \/ (exists m etag,
        let put := collector_put collector_id m etag in
        snd result = [collector_get collector_id; put]
        /\ match tr [collector_get collector_id] put with
           | Resolve r => fst result = Normal r.(data)
           | Reject message response =>
               fst result
               = Throw (Error (ServerTool.handleApiError
                                 (AxiosError message response)))
           end).
Proof.
  unfold ToolsArray.update_collector, ToolsArray.rethrow, collector_get,
    collector_put.
  run_to_end;
    repeat match goal with
           | |- context [ToolsArray.handleApiError ?e] =>
               rewrite (legacy_handleApiError_on_errors e)
                 by (simpl; discriminate)
           | |- context [match ToolsArray.handleApiError ?e with
                         | Normal _ => _ | Throw _ => _ end] =>
               destruct (ToolsArray.handleApiError e)
           end;
    cbv beta iota; cbn [fst snd];
    try (left; split; [reflexivity | eexists; reflexivity]);
    right; eexists; eexists; cbv zeta; (split; [reflexivity | ]);
    match goal with
    | H : tr _ _ = _ |- context [match tr _ _ with _ => _ end] => rewrite H
    end; reflexivity.
Qed.

(** A log of one GET followed by at most one PUT holds a PUT only at its
    end. *)
Lemma put_is_last (g p : request) (pre post : list request) (q : request) :
  is_method PUT g = false ->
  [g; p] = (pre ++ q :: post)%list ->
  is_method PUT q = true ->
  pre = [g] /\ q = p /\ post = [].
Proof.
  intros Hg Heq Hq.
  destruct pre as [| x [| y pre]]; simpl in Heq.
  - inversion Heq; subst. congruence.
  - inversion Heq; subst. auto.
  - inversion Heq as [[H1 H2 H3]].
    destruct pre; discriminate.
Qed.

(** C5, as the claim words it, fails for [execute] of src/index.ts: when
    the PUT is rejected with 412 it does not return an error result, it
    rejects with an [Error]. *)
Lemma legacy_update_collector_rejects :
  fst (run (ToolsArray.update_collector (VStr "123") (VStr "B") VUndefined
              VUndefined VUndefined) stale_tag)
  = Throw (Error conflict_text)
  /\ ~ (exists v,
          fst (run (ToolsArray.update_collector (VStr "123") (VStr "B")
                      VUndefined VUndefined VUndefined) stale_tag)
          = Normal v).
Proof.
  split; [reflexivity | ]. intros [v H]. discriminate H.
Qed.

(** C5, amended. For every invocation of [update_collector] and every
    transport, in either file, the log holds at most one PUT; and if a PUT
    of the log was rejected (whatever the status), it is the last call of
    the log, so neither a re-fetch nor a second write follows.  The
    [server.tool] handler then returns the error-flagged result of that
    rejection; the [execute] of src/index.ts then rejects with an [Error]
    whose message is the normalized text of that rejection. *)
Theorem update_collector_single_put (collector_id name description category
    fields : value) (tr : transport) :
  let result := run (ServerTool.update_collector collector_id name
                       description category fields) tr in
  let legacy := run (ToolsArray.update_collector collector_id name
                       description category fields) tr in
  List.length (filter (is_method PUT) (snd result)) <= 1
  /\ (forall pre put post message response,
        snd result = (pre ++ put :: post)%list ->
        is_method PUT put = true ->
        tr pre put = Reject message response ->
        post = []
        /\ fst result
           = Normal (ServerTool.error_result (AxiosError message response)))
  /\ List.length (filter (is_method PUT) (snd legacy)) <= 1
  /\ (forall pre put post message response,
        snd legacy = (pre ++ put :: post)%list ->
        is_method PUT put = true ->
        tr pre put = Reject message response ->
        post = []
        /\ fst legacy
           = Throw (Error (Spec.normalize (AxiosError message response)))).
Proof.
  cbv zeta.
  assert (HB :
    List.length (filter (is_method PUT)
       (snd (run (ServerTool.update_collector collector_id name description
                    category fields) tr))) <= 1
    /\ (forall pre put post message response,
          snd (run (ServerTool.update_collector collector_id name
                      description category fields) tr)
          = (pre ++ put :: post)%list ->
          is_method PUT put = true ->
          tr pre put = Reject message response ->
          post = []
          /\ fst (run (ServerTool.update_collector collector_id name
                         description category fields) tr)
             = Normal (ServerTool.error_result
                         (AxiosError message response)))).
  { destruct (update_collector_shape collector_id name description category
                fields tr) as [[Hlog _] | [m [etag [Hlog Hres]]]];
      cbv zeta in *; rewrite Hlog; (split; [simpl; lia | ]).
    - intros pre put post message response Heq Hput Hrej.
      destruct pre as [| x pre]; simpl in Heq; inversion Heq; subst.
      + discriminate.
      + destruct pre; discriminate.
    - intros pre put post message response Heq Hput Hrej.
      destruct (@put_is_last (collector_get collector_id) _ pre post put
                  eq_refl Heq Hput) as [-> [-> ->]].
      rewrite Hrej in Hres. auto. }
  assert (HA :
    List.length (filter (is_method PUT)
       (snd (run (ToolsArray.update_collector collector_id name description
                    category fields) tr))) <= 1
    /\ (forall pre put post message response,
          snd (run (ToolsArray.update_collector collector_id name
                      description category fields) tr)
          = (pre ++ put :: post)%list ->
          is_method PUT put = true ->
          tr pre put = Reject message response ->
          post = []
          /\ fst (run (ToolsArray.update_collector collector_id name
                         description category fields) tr)
             = Throw (Error (Spec.normalize
                               (AxiosError message response))))).
  { destruct (legacy_update_collector_shape collector_id name description
                category fields tr) as [[Hlog _] | [m [etag [Hlog Hres]]]];
      cbv zeta in *; rewrite Hlog; (split; [simpl; lia | ]).
    - intros pre put post message response Heq Hput Hrej.
      destruct pre as [| x pre]; simpl in Heq; inversion Heq; subst.
      + discriminate.
      + destruct pre; discriminate.
    - intros pre put post message response Heq Hput Hrej.
      destruct (@put_is_last (collector_get collector_id) _ pre post put
                  eq_refl Heq Hput) as [-> [-> ->]].
      rewrite Hrej in Hres. rewrite <- handleApiError_normalize. auto. }
  destruct HB as [HB1 HB2]. destruct HA as [HA1 HA2].
  split; [exact HB1 | ]. split; [exact HB2 | ].
  split; [exact HA1 | exact HA2].
Qed.

Lemma update_collector_single_put_witness :
  fst (run (ServerTool.update_collector (VStr "123") (VStr "B") VUndefined
              VUndefined VUndefined) stale_tag)
  = Normal (ServerTool.error_result
              (AxiosError "Request failed with status code 412"
                 (Some conflict)))
  /\ fst (run (ToolsArray.update_collector (VStr "123") (VStr "B")
                 VUndefined VUndefined VUndefined) stale_tag)
     = Throw (Error conflict_text).
Proof.
  pose proof (update_collector_single_put (VStr "123") (VStr "B") VUndefined
                VUndefined VUndefined stale_tag) as H.
  cbv zeta in H. destruct H as [_ [HB [_ HA]]].
  split.
  - exact (proj2 (HB [collector_get (VStr "123")]
                    (collector_put (VStr "123")
                       (merged fetched_A (VStr "B") VUndefined VUndefined
                          VUndefined) (VStr "v1"))
                    [] _ _ eq_refl eq_refl eq_refl)).
  - exact (proj2 (HA [collector_get (VStr "123")]
                    (collector_put (VStr "123")
                       (merged fetched_A (VStr "B") VUndefined VUndefined
                          VUndefined) (VStr "v1"))
                    [] _ _ eq_refl eq_refl eq_refl)).
Defined.

(** ** Failures of the remote calls, handler by handler *)

(** Rewrites the outcomes met on the way into the goal. *)
Ltac use_outcomes :=
  repeat match goal with
         | H : ?t ?l ?q = Resolve _ |- context [?t ?l ?q] => rewrite H
         | H : ?t ?l ?q = Reject _ _ |- context [?t ?l ?q] => rewrite H
         end.

Ltac settle_flags :=
  intros tr; run_to_end; eexists; (split; [reflexivity | ]);
  cbn [rejections app]; use_outcomes; cbn [rejections app]; use_outcomes;
  cbn [In]; intros e' He';
  repeat (destruct He' as [He' | He']; [subst e'; reflexivity | ]);
  contradiction.

Ltac settle_rejects :=
  intros tr e'; run_to_end;
  repeat match goal with
         | |- context [ToolsArray.handleApiError (AxiosError ?m ?r)] =>
             rewrite (legacy_handleApiError_on_errors (AxiosError m r))
               by (simpl; discriminate)
         | |- context [match ToolsArray.handleApiError ?e with
                       | Normal _ => _ | Throw _ => _ end] =>
             destruct (ToolsArray.handleApiError e)
         end;
  cbv beta iota; cbn [fst snd];
  cbn [rejections app]; use_outcomes; cbn [rejections app]; use_outcomes;
  cbn [In]; intros He';
  repeat (destruct He' as [He' | He'];
          [subst e';
           rewrite legacy_handleApiError_on_errors by (simpl; discriminate);
           eexists; split; reflexivity | ]);
  contradiction.

(** C3, as the claim words it, fails: [check_connection] is a handler, and
    on a dead network its result is not error-flagged and is not the
    normalizer's text. *)
Lemma check_connection_not_flagged :
  ~ (forall t, In t ServerTool.tools ->
       forall args, flags_failures (t.(ServerTool.handler) args)).
Proof.
  intros H.
  assert (Hin : In check_connection_tool ServerTool.tools)
    by (simpl; auto).
  destruct (H _ Hin [] network_down) as [r [Hr He]].
  specialize (He (AxiosError "Network Error" None) (or_introl eq_refl)).
  rewrite He in Hr. vm_compute in Hr. discriminate.
Qed.

(** C3, amended. Every handler registered with [server.tool] other than
    [check_connection] completes normally on every invocation and every
    transport, and when a remote call of it failed its result is the
    normalizer's text for that failure with [isError] set.  Every
    [execute] of the [sumoLogicTools] array other than [check_connection]
    answers such a failure by rejecting with an [Error] that carries the
    normalizer's text. *)
Theorem handlers_flag_failures :
  (forall t, In t ServerTool.tools ->
     t.(ServerTool.name) <> "check_connection" ->
     forall args, flags_failures (t.(ServerTool.handler) args))
  /\ (forall t, In t ToolsArray.sumoLogicTools ->
        t.(ToolsArray.name) <> "check_connection" ->
        forall args, rejects_on_failures (t.(ToolsArray.execute) args)).
Proof.
  split.
  - intros t Hin Hname args.
    unfold ServerTool.tools in Hin. cbn [In] in Hin.
    repeat (destruct Hin as [Hin | Hin];
            [subst t; cbn [ServerTool.handler ServerTool.name] in * | ]);
      try contradiction; try (exfalso; apply Hname; reflexivity);
      unfold flags_failures, ServerTool.list_collectors,
        ServerTool.get_collector, ServerTool.create_hosted_collector,
        ServerTool.update_collector, ServerTool.delete_collector,
        ServerTool.list_sources, ServerTool.get_source,
        ServerTool.create_http_source, ServerTool.start_search_job,
        ServerTool.check_search_job_status,
        ServerTool.get_search_job_results, ServerTool.list_monitors,
        ServerTool.get_monitor;
      settle_flags.
  - intros t Hin Hname args.
    unfold ToolsArray.sumoLogicTools in Hin. cbn [In] in Hin.
    repeat (destruct Hin as [Hin | Hin];
            [subst t; cbn [ToolsArray.execute ToolsArray.name] in * | ]);
      try contradiction; try (exfalso; apply Hname; reflexivity);
      unfold rejects_on_failures, ToolsArray.list_collectors,
        ToolsArray.get_collector, ToolsArray.create_hosted_collector,
        ToolsArray.update_collector, ToolsArray.delete_collector,
        ToolsArray.list_sources, ToolsArray.get_source,
        ToolsArray.create_http_source, ToolsArray.start_search_job,
        ToolsArray.check_search_job_status,
        ToolsArray.get_search_job_results, ToolsArray.list_monitors,
        ToolsArray.get_monitor, ToolsArray.rethrow;
      settle_rejects.
Qed.

Lemma get_collector_registered : In get_collector_tool ServerTool.tools.
Proof. simpl. auto. Qed.

Lemma handlers_flag_failures_witness :
  fst (run (ServerTool.get_collector (VStr "123")) network_down)
  = Normal (ServerTool.error_result (AxiosError "Network Error" None)).
Proof.
  destruct (proj1 handlers_flag_failures get_collector_tool
              ltac:(simpl; auto) ltac:(simpl; discriminate)
              [("collector_id", VStr "123")] network_down)
    as [r [Hr He]].
  cbn [ServerTool.handler get_collector_tool lookup String.eqb Ascii.eqb
       Bool.eqb] in Hr, He.
  rewrite Hr. f_equal. apply He. left. reflexivity.
Defined.

(** ** Schema validation before dispatch *)

Lemma required_present_missing (shape : list (string * ServerTool.ZodType))
    (args : object) (p : string) (ty : ServerTool.ZodType) :
  In (p, ty) shape ->
  Adapter.is_required ty = true ->
  lookup p args = VUndefined ->
  Adapter.required_present shape args = false.
Proof.
  intros Hin Hreq Hmiss.
  induction shape as [| [k t] shape IH]; simpl in *.
  - contradiction.
  - destruct Hin as [Heq | Hin].
    + inversion Heq; subst. rewrite Hreq, Hmiss. reflexivity.
    + rewrite (IH Hin). apply andb_false_r.
Qed.

Lemma required_present_legacy_missing
    (ps : list ToolsArray.McpToolParameter) (args : object)
    (p : ToolsArray.McpToolParameter) :
  In p ps ->
  p.(ToolsArray.required) = true ->
  lookup p.(ToolsArray.param_name) args = VUndefined ->
  Adapter.required_present_legacy ps args = false.
Proof.
  intros Hin Hreq Hmiss.
  induction ps as [| p' ps IH]; simpl in *.
  - contradiction.
  - destruct Hin as [Heq | Hin].
    + subst p'. rewrite Hreq, Hmiss. reflexivity.
    + rewrite (IH Hin). apply andb_false_r.
Qed.

(** Tool names are unique, so the dispatch finds the tool it is asked
    for. *)
Lemma find_tool (t : ServerTool.tool) :
  In t ServerTool.tools ->
  find (fun t' => t'.(ServerTool.name) =? t.(ServerTool.name))
       ServerTool.tools = Some t.
Proof.
  intros Hin. unfold ServerTool.tools in Hin. cbn [In] in Hin.
  repeat (destruct Hin as [Hin | Hin]; [subst t; reflexivity | ]).
  contradiction.
Qed.

Lemma find_tool_legacy (t : ToolsArray.McpToolDefinition) :
  In t ToolsArray.sumoLogicTools ->
  find (fun t' => t'.(ToolsArray.name) =? t.(ToolsArray.name))
       ToolsArray.sumoLogicTools = Some t.
Proof.
  intros Hin. unfold ToolsArray.sumoLogicTools in Hin. cbn [In] in Hin.
  repeat (destruct Hin as [Hin | Hin]; [subst t; reflexivity | ]).
  contradiction.
Qed.

(** The dispatch is no stub: a well-formed invocation reaches the handler,
    which issues its call. *)
Example call_tool_get_collector (tr : transport) :
  snd (Adapter.call_tool "get_collector" [("collector_id", VStr "123")]
         tr [])
  = [collector_get (VStr "123")].
Proof.
  unfold Adapter.call_tool. cbn [find ServerTool.tools ServerTool.name
    String.eqb Ascii.eqb Bool.eqb ServerTool.shape ServerTool.handler
    Adapter.required_present forallb Adapter.is_required negb orb andb
    lookup fst snd is_undefined].
  unfold ServerTool.get_collector, collector_get. run_async.
  destruct (tr [] _); reflexivity.
Qed.

(** C9. For every registered tool and every parameter its schema requires
    (for one, [collector_id] of [get_collector]), an invocation whose
    arguments lack that parameter is answered [invalid_params] by the
    dispatch without the handler being run: the log of calls is left as it
    was.  This holds over the zod shapes of the [server.tool] file and
    over the [required] flags of the [sumoLogicTools] array. *)
Theorem missing_required_parameter_rejected :
  (forall t p ty args tr log,
     In t ServerTool.tools ->
     In (p, ty) t.(ServerTool.shape) ->
     Adapter.is_required ty = true ->
     lookup p args = VUndefined ->
     Adapter.call_tool t.(ServerTool.name) args tr log
     = (Adapter.invalid_params, log))
  /\ (forall t p args tr log,
        In t ToolsArray.sumoLogicTools ->
        In p t.(ToolsArray.parameters) ->
        p.(ToolsArray.required) = true ->
        lookup p.(ToolsArray.param_name) args = VUndefined ->
        Adapter.call_tool_legacy t.(ToolsArray.name) args tr log
        = (Adapter.invalid_params, log))
  /\ In ("collector_id", ServerTool.z_string)
        get_collector_tool.(ServerTool.shape)
  /\ In get_collector_tool ServerTool.tools.
Proof.
  split; [ | split; [ | split ]].
  - intros t p ty args tr log Ht Hp Hreq Hmiss.
    unfold Adapter.call_tool. rewrite find_tool by exact Ht.
    erewrite required_present_missing by eassumption. reflexivity.
  - intros t p args tr log Ht Hp Hreq Hmiss.
    unfold Adapter.call_tool_legacy. rewrite find_tool_legacy by exact Ht.
    erewrite required_present_legacy_missing by eassumption. reflexivity.
  - simpl. auto.
  - exact get_collector_registered.
Qed.

Lemma missing_required_parameter_rejected_witness :
  Adapter.call_tool "get_collector" [] network_down []
  = (Adapter.invalid_params, []).
Proof.
  exact (proj1 missing_required_parameter_rejected get_collector_tool
           "collector_id" ServerTool.z_string [] network_down []
           get_collector_registered (or_introl eq_refl) eq_refl eq_refl).
Defined.

(* ================================================================== *)
(** * Further properties of the handlers *)

Unset Implicit Arguments.

(** ** What a [try] block can throw *)

Lemma Get_throws (v : value) (k : string) (e : thrown) :
  Get v k = Throw e -> e = cannot_read v k.
Proof.
  destruct v; simpl; intros H; inversion H; reflexivity.
Qed.

Lemma merge_collector_throws (cur name description category fields : value)
    (e : thrown) :
  merge_collector cur name description category fields = Throw e ->
  exists k, e = cannot_read cur k.
Proof.
  unfold merge_collector, and_then.
  destruct (truthy name), (negb (is_undefined description)),
    (truthy category), (truthy fields);
    repeat match goal with
           | |- context [Get cur ?k] =>
               let E := fresh "E" in
               destruct (Get cur k) eqn:E;
               [ | apply Get_throws in E; subst ]
           end;
    intros H; inversion H; eexists; reflexivity.
Qed.

Lemma set_param_throws (k : string) (v : value)
    (ps : list (string * string)) (e : thrown) :
  set_param k v ps = Throw e -> e = cannot_read v "toString".
Proof.
  destruct v; simpl; intros H; inversion H; reflexivity.
Qed.

(** Names the error a failed read threw. *)
Ltac name_errors :=
  repeat match goal with
         | H : Get _ _ = Throw _ |- _ => apply Get_throws in H; subst
         | H : merge_collector _ _ _ _ _ = Throw _ |- _ =>
             apply merge_collector_throws in H; destruct H as [? ->]
         | H : set_param _ _ _ = Throw _ |- _ =>
             apply set_param_throws in H; subst
         end.

(** Splits the [execute] side on whether a rejection carried a response. *)
Ltac legacy_normalize :=
  repeat match goal with
         | |- context [ToolsArray.handleApiError (AxiosError ?m ?r)] =>
             rewrite (legacy_handleApiError_on_errors (AxiosError m r))
               by (simpl; discriminate)
         end;
  cbn [ToolsArray.handleApiError cannot_read]; cbv beta iota.

Ltac unfold_handlers :=
  unfold ServerTool.check_connection, ServerTool.list_collectors,
    ServerTool.get_collector, ServerTool.create_hosted_collector,
    ServerTool.update_collector, ServerTool.delete_collector,
    ServerTool.list_sources, ServerTool.get_source,
    ServerTool.create_http_source, ServerTool.start_search_job,
    ServerTool.check_search_job_status,
    ServerTool.get_search_job_results, ServerTool.list_monitors,
    ServerTool.get_monitor,
    ToolsArray.check_connection, ToolsArray.list_collectors,
    ToolsArray.get_collector, ToolsArray.create_hosted_collector,
    ToolsArray.update_collector, ToolsArray.delete_collector,
    ToolsArray.list_sources, ToolsArray.get_source,
    ToolsArray.create_http_source, ToolsArray.start_search_job,
    ToolsArray.check_search_job_status,
    ToolsArray.get_search_job_results, ToolsArray.list_monitors,
    ToolsArray.get_monitor, ToolsArray.rethrow.

(** ** The two files against each other *)

(** X1. The two files are the same tools: paired in registration order,
    a [server.tool] handler and the [execute] of the array have the same
    name, issue the same calls on every arguments object and transport,
    and the handler's result is the presentation of what [execute]
    completes with: the JSON text of its value, or the flagged message of
    its rejection. *)
Theorem files_agree (b : ServerTool.tool) (a : ToolsArray.McpToolDefinition) :
  In (b, a) (combine ServerTool.tools ToolsArray.sumoLogicTools) ->
  b.(ServerTool.name) = a.(ToolsArray.name)
  /\ forall args tr,
       run (b.(ServerTool.handler) args) tr
       = (as_result (stringify_of b.(ServerTool.name))
            (fst (run (a.(ToolsArray.execute) args) tr)),
          snd (run (a.(ToolsArray.execute) args) tr)).
Proof.
  intros Hin.
  unfold ServerTool.tools, ToolsArray.sumoLogicTools in Hin.
  cbn [combine In] in Hin.
  repeat (destruct Hin as [Hin | Hin];
          [inversion Hin; subst b a; clear Hin;
           cbn [ServerTool.handler ServerTool.name ToolsArray.execute
                ToolsArray.name] | ]);
    try contradiction;
    (split; [reflexivity | ]); intros args tr;
    unfold_handlers; run_to_end; name_errors; legacy_normalize;
    reflexivity.
Qed.

Lemma files_agree_witness :
  run (ServerTool.get_collector (VStr "123")) network_down
  = (as_result JSON_stringify_2
       (fst (run (ToolsArray.get_collector (VStr "123")) network_down)),
     snd (run (ToolsArray.get_collector (VStr "123")) network_down)).
Proof.
  exact (proj2 (files_agree get_collector_tool get_collector_definition
                  ltac:(simpl; auto 10))
           [("collector_id", VStr "123")] network_down).
Defined.

(** ** The registry *)

(** X2. A handler reads its arguments object only at the parameters its
    schema declares: two arguments objects that agree on them give the
    same [async] body, in either file. *)
Theorem handler_reads_declared_parameters :
  (forall t args args',
     In t ServerTool.tools ->
     (forall k, In k (map fst t.(ServerTool.shape)) ->
                lookup k args = lookup k args') ->
     t.(ServerTool.handler) args = t.(ServerTool.handler) args')
  /\ (forall t args args',
        In t ToolsArray.sumoLogicTools ->
        (forall k, In k (map ToolsArray.param_name t.(ToolsArray.parameters))
                   -> lookup k args = lookup k args') ->
        t.(ToolsArray.execute) args = t.(ToolsArray.execute) args').
Proof.
  split; intros t args args' Hin Hsame.
  - unfold ServerTool.tools in Hin. cbn [In] in Hin.
    repeat (destruct Hin as [Hin | Hin];
            [subst t;
             cbn [ServerTool.handler ServerTool.shape map fst] in * | ]);
      try contradiction;
      repeat match goal with
             | |- context [lookup ?k args] =>
                 rewrite (Hsame k) by (simpl; auto 10)
             end;
      reflexivity.
  - unfold ToolsArray.sumoLogicTools in Hin. cbn [In] in Hin.
    repeat (destruct Hin as [Hin | Hin];
            [subst t;
             cbn [ToolsArray.execute ToolsArray.parameters map
                  ToolsArray.param ToolsArray.param_name] in * | ]);
      try contradiction;
      repeat match goal with
             | |- context [lookup ?k args] =>
                 rewrite (Hsame k) by (simpl; auto 10)
             end;
      reflexivity.
Qed.

Lemma handler_reads_declared_parameters_witness :
  ServerTool.handler get_collector_tool
    [("collector_id", VStr "123"); ("verbose", VBool true)]
  = ServerTool.handler get_collector_tool [("collector_id", VStr "123")].
Proof.
  apply (proj1 handler_reads_declared_parameters get_collector_tool).
  - simpl. auto 10.
  - intros k [<- | []]. reflexivity.
Defined.

(** X3. The two files declare the same fourteen tools: the same names in
    the same order, without a repeated name, and for each tool the same
    parameter names of which the same ones are required (a zod type that
    is not [optional] on one side, [required: true] on the other). *)
Theorem registries_agree :
  map ServerTool.name ServerTool.tools
  = map ToolsArray.name ToolsArray.sumoLogicTools
  /\ NoDup (map ServerTool.name ServerTool.tools)
  /\ List.length ServerTool.tools = 14
  /\ map (fun t => map fst t.(ServerTool.shape)) ServerTool.tools
     = map (fun t => map ToolsArray.param_name t.(ToolsArray.parameters))
         ToolsArray.sumoLogicTools
  /\ map (fun t => required_names t.(ServerTool.shape)) ServerTool.tools
     = map (fun t => required_names_legacy t.(ToolsArray.parameters))
         ToolsArray.sumoLogicTools.
Proof.
  split; [reflexivity | ]. split; [ | repeat split; reflexivity].
  cbn [map ServerTool.tools ServerTool.name].
  repeat (constructor;
          [cbn [In]; intros H;
           repeat (destruct H as [H | H]; [discriminate H | ]);
           exact H | ]).
  constructor.
Qed.

(** ** What a tool returns and what it calls *)

(** Picks the last call of a concrete log. *)
Ltac last_call :=
  match goal with
  | |- exists pre q r, [?a] = _ /\ _ => exists [], a
  | |- exists pre q r, [?a; ?b] = _ /\ _ => exists [a], b
  end;
  eexists; split; [reflexivity | split; [eassumption | reflexivity]].

(** X4. Passthrough: whatever a tool other than [check_connection] and
    [delete_collector] returns without an error is the body of the
    response to the last call it issued, as received: the value itself
    from [execute], its JSON text with two-space indentation from the
    [server.tool] handler. *)
Theorem passthrough :
  (forall t args tr v,
     In t ToolsArray.sumoLogicTools ->
     t.(ToolsArray.name) <> "check_connection" ->
     t.(ToolsArray.name) <> "delete_collector" ->
     fst (run (t.(ToolsArray.execute) args) tr) = Normal v ->
     exists pre q r,
       snd (run (t.(ToolsArray.execute) args) tr) = (pre ++ [q])%list
       /\ tr pre q = Resolve r
       /\ v = r.(data))
  /\ (forall t args tr res,
        In t ServerTool.tools ->
        t.(ServerTool.name) <> "check_connection" ->
        t.(ServerTool.name) <> "delete_collector" ->
        fst (run (t.(ServerTool.handler) args) tr) = Normal res ->
        res.(ServerTool.isError) = None ->
        exists pre q r,
          snd (run (t.(ServerTool.handler) args) tr) = (pre ++ [q])%list
          /\ tr pre q = Resolve r
          /\ res = ServerTool.text_result (JSON_stringify_2 r.(data))).
Proof.
  split.
  - intros t args tr v Hin Hcc Hdel.
    unfold ToolsArray.sumoLogicTools in Hin. cbn [In] in Hin.
    repeat (destruct Hin as [Hin | Hin];
            [subst t; cbn [ToolsArray.execute ToolsArray.name] in * | ]);
      try contradiction; try (exfalso; apply Hcc; reflexivity);
      try (exfalso; apply Hdel; reflexivity);
      unfold_handlers; run_to_end; name_errors; legacy_normalize;
      cbn [fst snd]; intros H; inversion H; subst;
      last_call.
  - intros t args tr res Hin Hcc Hdel.
    unfold ServerTool.tools in Hin. cbn [In] in Hin.
    repeat (destruct Hin as [Hin | Hin];
            [subst t; cbn [ServerTool.handler ServerTool.name] in * | ]);
      try contradiction; try (exfalso; apply Hcc; reflexivity);
      try (exfalso; apply Hdel; reflexivity);
      unfold_handlers; run_to_end;
      cbn [fst snd]; intros H Hflag; inversion H; subst;
      try discriminate Hflag;
      last_call.
Qed.

Lemma passthrough_witness :
  exists pre q r,
    snd (run (ServerTool.get_collector (VStr "123")) serves_A)
    = (pre ++ [q])%list
    /\ serves_A pre q = Resolve r
    /\ ServerTool.text_result
         (JSON_stringify_2 (VObj [("collector", VObj fetched_A)]))
       = ServerTool.text_result (JSON_stringify_2 r.(data)).
Proof.
  exact (proj2 passthrough get_collector_tool
           [("collector_id", VStr "123")] serves_A
           (ServerTool.text_result
              (JSON_stringify_2 (VObj [("collector", VObj fetched_A)])))
           ltac:(simpl; auto 10) ltac:(simpl; discriminate)
           ltac:(simpl; discriminate) eq_refl eq_refl).
Defined.

(** X5. The calls of a tool, for every arguments object and transport:
    at most one, except [update_collector], which issues at most two; only
    GETs without a body from the read-only tools; a PUT only from
    [update_collector], a DELETE only from [delete_collector], a POST only
    from the two create tools and [start_search_job]. *)
Theorem calls_of_a_tool (t : ServerTool.tool) (args : object)
    (tr : transport) :
  In t ServerTool.tools ->
  let log := snd (run (t.(ServerTool.handler) args) tr) in
  List.length log <= 2
  /\ (t.(ServerTool.name) <> "update_collector" -> List.length log <= 1)
  /\ (In t.(ServerTool.name) read_only ->
      Forall (fun q => q.(method) = GET /\ q.(body) = VUndefined) log)
  /\ (forall q, In q log -> q.(method) = PUT ->
                t.(ServerTool.name) = "update_collector")
  /\ (forall q, In q log -> q.(method) = DELETE ->
                t.(ServerTool.name) = "delete_collector")
  /\ (forall q, In q log -> q.(method) = POST ->
                In t.(ServerTool.name)
                   ["create_hosted_collector"; "create_http_source";
                    "start_search_job"]).
Proof.
  intros Hin. cbv zeta.
  unfold ServerTool.tools in Hin. cbn [In] in Hin.
  repeat (destruct Hin as [Hin | Hin];
          [subst t; cbn [ServerTool.handler ServerTool.name] in * | ]);
    try contradiction;
    unfold_handlers; run_to_end;
    (split; [simpl; lia | ]);
    (split; [intros Hn; simpl; try lia; exfalso; apply Hn; reflexivity | ]);
    (split; [intros Hro; try (repeat constructor; fail);
             exfalso; unfold read_only in Hro; cbn [In] in Hro;
             repeat (destruct Hro as [Hro | Hro]; [discriminate Hro | ]);
             exact Hro | ]);
    repeat split; intros q Hq Hm; cbn [In] in Hq;
    repeat (destruct Hq as [Hq | Hq];
            [subst q; cbn [method] in Hm;
             try discriminate Hm; try reflexivity; simpl; auto 10 | ]);
    contradiction.
Qed.

Lemma calls_of_a_tool_witness :
  List.length (snd (run (ServerTool.get_collector (VStr "123")) serves_A))
  <= 1.
Proof.
  exact (proj1 (proj2 (calls_of_a_tool get_collector_tool
                         [("collector_id", VStr "123")] serves_A
                         ltac:(simpl; auto 10)))
           ltac:(simpl; discriminate)).
Defined.

(** ** delete_collector and start_search_job *)

(** X6. [delete_collector] issues one DELETE on the collector's path and,
    when it is accepted, answers with a payload it builds itself from the
    id: the body of the response plays no part in it.  When the DELETE is
    rejected, the handler answers with the flagged normalized text and
    [execute] rejects with it. *)
Theorem delete_collector_payload (collector_id : value) (tr : transport) :
  let q := request_of DELETE ("/v1/collectors/" ++ ToString collector_id)
             VUndefined in
  let payload := VObj [
    ("status", VStr "success");
    ("message", VStr ("Collector " ++ ToString collector_id
                        ++ " deleted successfully"))] in
  snd (run (ServerTool.delete_collector collector_id) tr) = [q]
  /\ snd (run (ToolsArray.delete_collector collector_id) tr) = [q]
  /\ (forall r, tr [] q = Resolve r ->
        fst (run (ServerTool.delete_collector collector_id) tr)
        = Normal (ServerTool.text_result (JSON_stringify payload))
        /\ fst (run (ToolsArray.delete_collector collector_id) tr)
           = Normal payload)
  /\ (forall message response, tr [] q = Reject message response ->
        fst (run (ServerTool.delete_collector collector_id) tr)
        = Normal (ServerTool.error_result (AxiosError message response))
        /\ fst (run (ToolsArray.delete_collector collector_id) tr)
           = Throw (Error (Spec.normalize (AxiosError message response)))).
Proof.
  cbv zeta. unfold request_of. unfold_handlers. run_async. cbv beta iota.
  destruct (tr [] _) as [r | m [resp |]] eqn:E; cbn [fst snd app];
    repeat match goal with |- _ /\ _ => split end;
    intros; try discriminate; try reflexivity;
    match goal with
    | H : _ = _ |- _ => inversion H; subst; split; reflexivity
    end.
Qed.

Lemma delete_collector_payload_witness :
  fst (run (ServerTool.delete_collector (VStr "123")) stale_tag)
  = Normal (ServerTool.text_result (JSON_stringify (VObj [
      ("status", VStr "success");
      ("message", VStr "Collector 123 deleted successfully")]))).
Proof.
  exact (proj1 (proj1 (proj2 (proj2 (delete_collector_payload (VStr "123")
                                       stale_tag)))
                  _ eq_refl)).
Defined.

(** X7. [start_search_job] issues one POST to /v1/search/jobs whose body
    holds the query, [from_time] under [from], [to_time] under [to], and
    under [timeZone] the supplied time zone when it is truthy and "UTC"
    otherwise: an omitted time zone and an empty one both give "UTC".
    Both files. *)
Theorem start_search_job_time_zone (query from_time to_time time_zone : value)
    (tr : transport) :
  let q := request_of POST "/v1/search/jobs"
             (search_job_body query from_time to_time
                (if truthy time_zone then time_zone else VStr "UTC")) in
  snd (run (ServerTool.start_search_job query from_time to_time time_zone)
         tr) = [q]
  /\ snd (run (ToolsArray.start_search_job query from_time to_time
                 time_zone) tr) = [q]
  /\ (time_zone = VUndefined \/ time_zone = VStr "" ->
      q.(body) = search_job_body query from_time to_time (VStr "UTC")).
Proof.
  cbv zeta. unfold request_of, search_job_body, or_else. unfold_handlers.
  run_async. cbv beta iota.
  split; [ | split ].
  - destruct (tr [] _); reflexivity.
  - destruct (tr [] _) as [r | m [resp |]]; reflexivity.
  - intros [-> | ->]; reflexivity.
Qed.

Lemma start_search_job_time_zone_witness :
  snd (run (ServerTool.start_search_job (VStr "error") (VStr "-15m")
              (VStr "now") (VStr "")) accepts_all)
  = [request_of POST "/v1/search/jobs"
       (search_job_body (VStr "error") (VStr "-15m") (VStr "now")
          (VStr "UTC"))].
Proof.
  pose proof (start_search_job_time_zone (VStr "error") (VStr "-15m")
                (VStr "now") (VStr "") accepts_all) as H.
  cbv zeta in H. exact (proj1 H).
Defined.

(** ** Optional fields in the JSON sent *)

Lemma stringify_undefined_only (gap indent : string) (v : value) :
  is_undefined v = true -> SerializeJSONProperty gap indent v = None.
Proof. destruct v; simpl; intros H; try discriminate; reflexivity. Qed.

Lemma stringify_defined (gap indent : string) (v : value) :
  is_undefined v = false -> SerializeJSONProperty gap indent v <> None.
Proof. destruct v; simpl; intros H; discriminate. Qed.

(** The members a [JSON.stringify] writes for an object are those of its
    defined properties. *)
Lemma members_defined_properties (gap indent : string) (o : object) :
  flat_map (fun kv =>
              match SerializeJSONProperty gap indent (snd kv) with
              | Some s =>
                  [QuoteJSONString (fst kv) ++ ":"
                     ++ (if gap =? "" then "" else " ") ++ s]
              | None => []
              end) (defined_properties o)
  = flat_map (fun kv =>
              match SerializeJSONProperty gap indent (snd kv) with
              | Some s =>
                  [QuoteJSONString (fst kv) ++ ":"
                     ++ (if gap =? "" then "" else " ") ++ s]
              | None => []
              end) o.
Proof.
  induction o as [| [k v] o IH]; [reflexivity | ].
  unfold defined_properties in *. cbn [filter snd fst flat_map].
  destruct (is_undefined v) eqn:E; cbn [negb].
  - rewrite (stringify_undefined_only gap indent v E). exact IH.
  - cbn [flat_map snd fst]. rewrite IH. reflexivity.
Qed.

Lemma stringify_defined_properties (gap indent : string) (o : object) :
  SerializeJSONProperty gap indent (VObj (defined_properties o))
  = SerializeJSONProperty gap indent (VObj o).
Proof.
  cbn [SerializeJSONProperty]. rewrite members_defined_properties.
  reflexivity.
Qed.

(** The same below one enclosing key, as the bodies of the handlers are. *)
Lemma stringify_enveloped (gap indent k : string) (o : object) :
  SerializeJSONProperty gap indent (VObj [(k, VObj (defined_properties o))])
  = SerializeJSONProperty gap indent (VObj [(k, VObj o)]).
Proof.
  cbn [SerializeJSONProperty flat_map snd fst].
  rewrite members_defined_properties. reflexivity.
Qed.

(** X8. The two create tools post one body that copies the supplied
    fields as they are under the fixed type ([collectorType: 'Hosted'];
    [sourceType: 'HTTP'] and [messagePerRequest: false]), and the JSON
    sent holds exactly the fields that are not undefined: an omitted
    optional field leaves no member behind.  Both files. *)
Theorem create_bodies (collector_id name description category fields : value)
    (tr : transport) :
  let collector := [("collectorType", VStr "Hosted"); ("name", name);
                    ("description", description); ("category", category);
                    ("fields", fields)] in
  let source := [("sourceType", VStr "HTTP"); ("name", name);
                 ("description", description); ("category", category);
                 ("fields", fields); ("messagePerRequest", VBool false)] in
  let hosted := request_of POST "/v1/collectors"
                  (VObj [("collector", VObj collector)]) in
  let http := request_of POST
                ("/v1/collectors/" ++ ToString collector_id ++ "/sources")
                (VObj [("source", VObj source)]) in
  snd (run (ServerTool.create_hosted_collector name description category
              fields) tr) = [hosted]
  /\ snd (run (ToolsArray.create_hosted_collector name description category
                 fields) tr) = [hosted]
  /\ snd (run (ServerTool.create_http_source collector_id name description
                 category fields) tr) = [http]
  /\ snd (run (ToolsArray.create_http_source collector_id name description
                 category fields) tr) = [http]
  /\ JSON_stringify hosted.(body)
     = JSON_stringify (VObj [("collector",
                              VObj (defined_properties collector))])
  /\ JSON_stringify http.(body)
     = JSON_stringify (VObj [("source", VObj (defined_properties source))]).
Proof.
  cbv zeta. unfold request_of. unfold_handlers. run_async. cbv beta iota.
  repeat match goal with |- _ /\ _ => split end.
  - destruct (tr [] _); reflexivity.
  - destruct (tr [] _) as [r | m [resp |]]; reflexivity.
  - destruct (tr [] _); reflexivity.
  - destruct (tr [] _) as [r | m [resp |]]; reflexivity.
  - cbn [body]. unfold JSON_stringify. symmetry. apply stringify_enveloped.
  - cbn [body]. unfold JSON_stringify. symmetry. apply stringify_enveloped.
Qed.

(** Name and category only: the JSON of the source has four members. *)
Example create_http_source_two_fields :
  JSON_stringify (VObj [("source", VObj (defined_properties [
      ("sourceType", VStr "HTTP"); ("name", VStr "n");
      ("description", VUndefined); ("category", VStr "c");
      ("fields", VUndefined); ("messagePerRequest", VBool false)]))])
  = JSON_stringify (VObj [("source", VObj [
      ("sourceType", VStr "HTTP"); ("name", VStr "n");
      ("category", VStr "c"); ("messagePerRequest", VBool false)])]).
Proof. reflexivity. Qed.

(** ** More on update_collector *)

Lemma define_property_own_value (k : string) (o : object) :
  defined_properties (define_property k (lookup k o) o)
  = defined_properties o.
Proof.
  induction o as [| [k' v'] o IH]; [reflexivity | ].
  cbn [lookup define_property]. destruct (k' =? k) eqn:E.
  - reflexivity.
  - unfold defined_properties in *. cbn [filter snd]. rewrite IH.
    reflexivity.
Qed.

(** Supplying nothing leaves the defined properties as fetched. *)
Lemma merged_nothing (o : object) :
  defined_properties (merged o VUndefined VUndefined VUndefined VUndefined)
  = defined_properties o.
Proof.
  unfold merged, or_else. cbn [truthy is_undefined].
  set (o1 := define_property "name" (lookup "name" o) o).
  set (o2 := define_property "description" (lookup "description" o) o1).
  set (o3 := define_property "category" (lookup "category" o) o2).
  assert (H1 : lookup "description" o = lookup "description" o1)
    by (subst o1; rewrite lookup_define_property; reflexivity).
  assert (H2 : lookup "category" o = lookup "category" o2)
    by (subst o2 o1; rewrite !lookup_define_property; reflexivity).
  assert (H3 : lookup "fields" o = lookup "fields" o3)
    by (subst o3 o2 o1; rewrite !lookup_define_property; reflexivity).
  rewrite H3, define_property_own_value. subst o3.
  rewrite H2, define_property_own_value. subst o2.
  rewrite H1, define_property_own_value. subst o1.
  apply define_property_own_value.
Qed.

(** X9. An update that supplies no field writes the fetched collector
    back: when the fetch returns a collector object, the JSON of the PUT
    body is the JSON of [{collector: <the fetched collector>}], in either
    file; the PUT is still issued, under the fetched tag. *)
Theorem update_collector_nothing_supplied (collector_id : value)
    (tr : transport) (r : AxiosResponse) (o : object) :
  tr [] (collector_get collector_id) = Resolve r ->
  Get r.(data) "collector" = Normal (VObj o) ->
  exists put,
    snd (run (ServerTool.update_collector collector_id VUndefined VUndefined
                VUndefined VUndefined) tr)
    = [collector_get collector_id; put]
    /\ snd (run (ToolsArray.update_collector collector_id VUndefined
                   VUndefined VUndefined VUndefined) tr)
       = [collector_get collector_id; put]
    /\ put.(method) = PUT
    /\ put.(req_headers) = [("If-Match", header "etag" r.(headers))]
    /\ JSON_stringify put.(body)
       = JSON_stringify (VObj [("collector", VObj o)]).
Proof.
  intros Hget Hcur.
  destruct (update_collector_log collector_id VUndefined VUndefined
              VUndefined VUndefined tr Hget Hcur
              (merge_collector_object o _ _ _ _)) as [HB HA].
  eexists. split; [exact HB | ]. split; [exact HA | ].
  split; [reflexivity | ]. split; [reflexivity | ].
  cbn [body collector_put]. unfold JSON_stringify.
  rewrite <- stringify_enveloped, merged_nothing.
  apply stringify_enveloped.
Qed.

Lemma update_collector_nothing_supplied_witness :
  exists put,
    snd (run (ServerTool.update_collector (VStr "123") VUndefined VUndefined
                VUndefined VUndefined) serves_A)
    = [collector_get (VStr "123"); put]
    /\ JSON_stringify put.(body)
       = JSON_stringify (VObj [("collector", VObj fetched_A)]).
Proof.
  destruct (update_collector_nothing_supplied (VStr "123") serves_A
              {| status := 200; headers := [("etag", "v1")];
                 data := VObj [("collector", VObj fetched_A)] |}
              fetched_A eq_refl eq_refl)
    as [put [HB [_ [_ [_ Hjson]]]]].
  exists put. split; [exact HB | exact Hjson].
Defined.

Lemma keys_define_property (k : string) (v : value) (o : object) :
  map fst (define_property k v o)
  = (map fst o ++ (if existsb (String.eqb k) (map fst o) then [] else [k]))
    %list.
Proof.
  induction o as [| [k' v'] o IH]; [reflexivity | ].
  cbn [define_property map fst existsb app].
  destruct (k' =? k) eqn:E.
  - apply String.eqb_eq in E; subst k'. rewrite String.eqb_refl.
    cbn [orb map fst]. rewrite app_nil_r. reflexivity.
  - rewrite String.eqb_sym, E. cbn [orb map fst]. rewrite IH. reflexivity.
Qed.

Lemma existsb_eqb_In (k : string) (l : list string) :
  existsb (String.eqb k) l = true <-> In k l.
Proof.
  rewrite existsb_exists. split.
  - intros [x [Hx E]]. apply String.eqb_eq in E. subst. exact Hx.
  - intros H. exists k. split; [exact H | apply String.eqb_refl].
Qed.

Lemma NoDup_define_property (k : string) (v : value) (o : object) :
  NoDup (map fst o) -> NoDup (map fst (define_property k v o)).
Proof.
  intros H. rewrite keys_define_property.
  destruct (existsb (String.eqb k) (map fst o)) eqn:E.
  - rewrite app_nil_r. exact H.
  - apply NoDup_app; [exact H | repeat constructor; intros [] | ].
    intros x Hx [<- | []].
    apply existsb_eqb_In in Hx. congruence.
Qed.

(** X10. The merge keeps the shape of the fetched collector and completes
    it: the property names of the collector written are those of the
    fetched one, in their places, followed by each of [name],
    [description], [category] and [fields] that the fetched one lacked, in
    that order; and if no name occurred twice in the fetched collector
    none does in the collector written. *)
Theorem merged_keeps_shape (o : object)
    (name description category fields : value) :
  map fst (merged o name description category fields)
  = (map fst o ++ absent_keys o)%list
  /\ (NoDup (map fst o) ->
      NoDup (map fst (merged o name description category fields))).
Proof.
  split.
  - unfold merged, absent_keys, managed_keys.
    rewrite !keys_define_property, !existsb_app. cbn [filter].
    destruct (existsb (String.eqb "name") (map fst o)),
      (existsb (String.eqb "description") (map fst o)),
      (existsb (String.eqb "category") (map fst o)),
      (existsb (String.eqb "fields") (map fst o));
      cbn; rewrite <- ?app_assoc, ?app_nil_r; reflexivity.
  - intros H. unfold merged. repeat apply NoDup_define_property. exact H.
Qed.

(** A fetched collector without properties is written with the four. *)
Example merged_of_empty (name description category fields : value) :
  map fst (merged [] name description category fields) = managed_keys.
Proof. reflexivity. Qed.

Lemma merged_keeps_shape_witness :
  NoDup (map fst (merged fetched_A (VStr "B") VUndefined VUndefined
                    VUndefined)).
Proof.
  apply (proj2 (merged_keeps_shape fetched_A (VStr "B") VUndefined
                  VUndefined VUndefined)).
  repeat constructor; simpl; intuition discriminate.
Defined.

Lemma header_absent (k : string) (hs : list (string * string)) :
  (forall v, ~ In (k, v) hs) -> header k hs = VUndefined.
Proof.
  induction hs as [| [k' v'] hs IH]; intros H; [reflexivity | ].
  cbn [header]. destruct (k' =? k) eqn:E.
  - apply String.eqb_eq in E; subst k'. exfalso. apply (H v'). left.
    reflexivity.
  - apply IH. intros v Hv. apply (H v). right. exact Hv.
Qed.

(** X11. What [update_collector] does when the fetch does not give a
    collector.  A rejected GET ends the flow without a write.  A response
    without a [collector] ends it without a write too, on the first
    property the caller left to the fetched state (here [name]), with the
    text of the TypeError; but when the caller supplies all four
    properties nothing is read from the fetched state and they are
    written as the whole collector.  A response without an [etag] header
    does not stop the write: the PUT goes out with an undefined
    If-Match. *)
Theorem update_collector_without_fetched_state (collector_id name description
    category fields : value) (tr : transport) :
  let update := ServerTool.update_collector collector_id name description
                  category fields in
  (forall message response,
     tr [] (collector_get collector_id) = Reject message response ->
     run update tr
     = (Normal (ServerTool.error_result (AxiosError message response)),
        [collector_get collector_id]))
  /\ (forall r cur,
        tr [] (collector_get collector_id) = Resolve r ->
        Get r.(data) "collector" = Normal cur ->
        cur = VUndefined \/ cur = VNull ->
        truthy name = false ->
        run update tr
        = (Normal (ServerTool.error_result (cannot_read cur "name")),
           [collector_get collector_id]))
  /\ (forall r cur,
        tr [] (collector_get collector_id) = Resolve r ->
        Get r.(data) "collector" = Normal cur ->
        cur = VUndefined \/ cur = VNull ->
        truthy name = true -> is_undefined description = false ->
        truthy category = true -> truthy fields = true ->
        snd (run update tr)
        = [collector_get collector_id;
           collector_put collector_id
             [("name", name); ("description", description);
              ("category", category); ("fields", fields)]
             (header "etag" r.(headers))])
  /\ (forall r o,
        tr [] (collector_get collector_id) = Resolve r ->
        Get r.(data) "collector" = Normal (VObj o) ->
        (forall v, ~ In ("etag", v) r.(headers)) ->
        snd (run update tr)
        = [collector_get collector_id;
           collector_put collector_id
             (merged o name description category fields) VUndefined]).
Proof.
  cbv zeta. repeat match goal with |- _ /\ _ => split end.
  - intros message response Hget.
    unfold ServerTool.update_collector, collector_get in *. run_async.
    rewrite Hget. reflexivity.
  - intros r cur Hget Hcur Hnone Hname.
    unfold ServerTool.update_collector, collector_get in *. run_async.
    rewrite Hget. cbv beta iota. rewrite Hcur. cbv beta iota.
    unfold merge_collector, and_then. rewrite Hname.
    destruct Hnone as [-> | ->]; reflexivity.
  - intros r cur Hget Hcur Hnone Hn Hd Hc Hf.
    refine (proj1 (update_collector_log collector_id name description
                     category fields tr Hget Hcur _)).
    unfold merge_collector, and_then. rewrite Hn, Hd, Hc, Hf.
    destruct Hnone as [-> | ->]; reflexivity.
  - intros r o Hget Hcur Hnotag.
    rewrite <- (header_absent "etag" r.(headers) Hnotag).
    exact (proj1 (update_collector_log collector_id name description
                    category fields tr Hget Hcur
                    (merge_collector_object o _ _ _ _))).
Qed.

Lemma update_collector_without_fetched_state_witness :
  snd (run (ServerTool.update_collector (VStr "123") (VStr "n") (VStr "d")
              (VStr "c") (VObj [])) accepts_all)
  = [collector_get (VStr "123");
     collector_put (VStr "123")
       [("name", VStr "n"); ("description", VStr "d");
        ("category", VStr "c"); ("fields", VObj [])]
       VUndefined].
Proof.
  exact (proj1 (proj2 (proj2 (update_collector_without_fetched_state
                                (VStr "123") (VStr "n") (VStr "d")
                                (VStr "c") (VObj []) accepts_all)))
           {| status := 200; headers := []; data := VObj [] |} VUndefined
           eq_refl eq_refl (or_introl eq_refl) eq_refl eq_refl eq_refl
           eq_refl).
Defined.

(** ** Paths and query parameters *)

(** X12. An id goes into the path as it is, without escaping: an id that
    holds a slash reaches another resource.  [get_collector] on
    "<c>/sources" is [list_sources] on "<c>", on "<c>/sources/<s>" it is
    [get_source], and [delete_collector] on "<c>/sources/<s>" issues the
    DELETE of that source. *)
Theorem path_parameters_not_escaped (c s : string) (tr : transport) :
  run (ServerTool.get_collector (VStr (c ++ "/sources"))) tr
  = run (ServerTool.list_sources (VStr c)) tr
  /\ run (ServerTool.get_collector (VStr (c ++ "/sources/" ++ s))) tr
     = run (ServerTool.get_source (VStr c) (VStr s)) tr
  /\ run (ToolsArray.get_collector (VStr (c ++ "/sources/" ++ s))) tr
     = run (ToolsArray.get_source (VStr c) (VStr s)) tr
  /\ snd (run (ServerTool.delete_collector (VStr (c ++ "/sources/" ++ s)))
            tr)
     = [request_of DELETE ("/v1/collectors/" ++ c ++ "/sources/" ++ s)
          VUndefined]
  /\ snd (run (ToolsArray.delete_collector (VStr (c ++ "/sources/" ++ s)))
            tr)
     = [request_of DELETE ("/v1/collectors/" ++ c ++ "/sources/" ++ s)
          VUndefined].
Proof.
  repeat match goal with |- _ /\ _ => split end; try reflexivity;
    unfold request_of; unfold_handlers; run_async; cbv beta iota;
    cbn [ToString];
    match goal with
    | |- context [tr ?l ?q] => destruct (tr l q) as [r | m [resp |]]
    end; reflexivity.
Qed.

(** X13. The query parameters of [get_search_job_results], for every
    limit and offset that is left out or a safe integer (of magnitude at
    most 2^53 - 1): each one supplied is sent under its name as its
    decimal text, [limit] before [offset], and each one left out is not
    sent; there is one GET, on the messages of the job.  A [null] limit
    is not undefined, and its [toString()] throws before any call.  Both
    files. *)
Theorem get_search_job_results_query (job_id : value) (limit offset : option Z)
    (tr : transport) :
  safe_argument limit ->
  safe_argument offset ->
  let sent := [messages_request job_id
                 (param_of "limit" limit ++ param_of "offset" offset)] in
  snd (run (ServerTool.get_search_job_results job_id
              (number_or_undefined limit) (number_or_undefined offset)) tr)
  = sent
  /\ snd (run (ToolsArray.get_search_job_results job_id
                 (number_or_undefined limit) (number_or_undefined offset))
            tr)
     = sent
  /\ run (ServerTool.get_search_job_results job_id VNull
            (number_or_undefined offset)) tr
     = (Normal (ServerTool.error_result (cannot_read VNull "toString")), []).
Proof.
  intros _ _.
  cbv zeta. unfold messages_request. unfold_handlers. run_async.
  destruct limit, offset;
    cbn [number_or_undefined param_of set_param is_undefined negb toString
         and_then ToString app];
    cbv beta iota;
    (split; [ | split ]); try reflexivity;
    match goal with
    | |- context [tr ?l ?q] => destruct (tr l q) as [r | m [resp |]]
    end; reflexivity.
Qed.

Lemma get_search_job_results_query_witness :
  snd (run (ServerTool.get_search_job_results (VStr "j") (VNum 9007199254740991)
              VUndefined) accepts_all)
  = [messages_request (VStr "j") [("limit", "9007199254740991")]].
Proof.
  refine (proj1 (get_search_job_results_query (VStr "j")
                   (Some 9007199254740991%Z) None accepts_all _ I)).
  unfold safe_argument, safe_integer. cbn. discriminate.
Defined.

(** ** Which errors reach the normalizer *)

Lemma Throw_injective (A : Type) (e e' : thrown) :
  @Throw A e = Throw e' -> e = e'.
Proof. intros H. congruence. Qed.

(** X14. Every result of a [server.tool] handler is one text block, and a
    flagged one is always the normalized text of an [Error] object, an
    axios error or a TypeError of the handler itself: no handler ever
    answers "Unknown error occurred".  Likewise every rejection of an
    [execute] is an [Error] whose message is the normalized text of such
    an object, so the normalizer of src/index.ts never throws there. *)
Theorem only_errors_reach_the_normalizer :
  (forall t args tr,
     In t ServerTool.tools ->
     exists res,
       fst (run (t.(ServerTool.handler) args) tr) = Normal res
       /\ (exists txt,
             res.(ServerTool.content)
             = [ {| ServerTool.type := "text"; ServerTool.text := txt |} ])
       /\ (res.(ServerTool.isError) = Some true ->
           exists e,
             is_Error e = true
             /\ res = ServerTool.error_result e
             /\ ServerTool.handleApiError e <> "Unknown error occurred"))
  /\ (forall t args tr e,
        In t ToolsArray.sumoLogicTools ->
        fst (run (t.(ToolsArray.execute) args) tr) = Throw e ->
        exists e0,
          is_Error e0 = true /\ e = Error (Spec.normalize e0)).
Proof.
  split.
  - intros t args tr Hin.
    unfold ServerTool.tools in Hin. cbn [In] in Hin.
    repeat (destruct Hin as [Hin | Hin];
            [subst t; cbn [ServerTool.handler] in * | ]);
      try contradiction;
      unfold_handlers; run_to_end; name_errors;
      (eexists; split; [reflexivity | ]);
      (split; [eexists; reflexivity | ]);
      intros Hflag; try discriminate Hflag;
      (refine (ex_intro _ _ (conj _ (conj eq_refl _)));
       [reflexivity | ]);
      try match goal with
          | |- ServerTool.handleApiError (AxiosError _ ?r) <> _ =>
              destruct r
          end;
      cbn [ServerTool.handleApiError cannot_read String.append];
      discriminate.
  - intros t args tr e Hin.
    unfold ToolsArray.sumoLogicTools in Hin. cbn [In] in Hin.
    repeat (destruct Hin as [Hin | Hin];
            [subst t; cbn [ToolsArray.execute] in * | ]);
      try contradiction;
      unfold_handlers; run_to_end; name_errors; legacy_normalize;
      cbn [fst]; intros H; try discriminate H;
      apply Throw_injective in H; subst e;
      match goal with
      | |- exists e0, _ /\ Error (ServerTool.handleApiError ?e) = _ =>
          exists e
      | |- exists e0, _ /\ Error ("Error: " ++ ?m) = _ =>
          exists (Error m)
      end;
      (split; [reflexivity | ]);
      rewrite <- ?handleApiError_normalize; reflexivity.
Qed.

Lemma only_errors_reach_the_normalizer_witness :
  exists e,
    is_Error e = true
    /\ ServerTool.error_result (AxiosError "Network Error" None)
       = ServerTool.error_result e
    /\ ServerTool.handleApiError e <> "Unknown error occurred".
Proof.
  destruct (proj1 only_errors_reach_the_normalizer get_collector_tool
              [("collector_id", VStr "123")] network_down
              ltac:(simpl; auto 10))
    as [res [Hres [_ Hflag]]].
  cbn in Hres. inversion Hres; subst res.
  exact (Hflag eq_refl).
Defined.

(** ** More on start-up *)

Lemma exit_is_last (trace pre post : list Startup.event) (code : Z) :
  forallb (fun ev => negb (is_exit ev)) (removelast trace) = true ->
  trace = (pre ++ Startup.process_exit code :: post)%list ->
  post = [].
Proof.
  intros Hlast ->. destruct post as [| ev post]; [reflexivity | ].
  exfalso.
  rewrite removelast_app in Hlast by discriminate.
  rewrite forallb_app in Hlast. apply andb_true_iff in Hlast.
  destruct Hlast as [_ Hlast]. cbn in Hlast. discriminate.
Qed.

(** X15. The process exits at start-up exactly when a credential is
    missing or empty or the connection of the server fails, always with
    code 1, and the exit is the last thing it does.  Both files. *)
Theorem startup_exits (e : Startup.env) (connected : bool) :
  let fatal := Startup.SUMOLOGIC_ACCESS_ID e = ""
               \/ Startup.SUMOLOGIC_ACCESS_KEY e = ""
               \/ connected = false in
  (In (Startup.process_exit 1) (ServerTool.startup e connected) <-> fatal)
  /\ (In (Startup.process_exit 1) (ToolsArray.startup e connected)
      <-> fatal)
  /\ (forall pre post code,
        ServerTool.startup e connected
        = (pre ++ Startup.process_exit code :: post)%list
        \/ ToolsArray.startup e connected
           = (pre ++ Startup.process_exit code :: post)%list ->
        code = 1%Z /\ post = []).
Proof.
  cbv zeta.
  assert (Hcode : forall trace pre post code,
            trace = (pre ++ Startup.process_exit code :: post)%list ->
            forallb (fun ev => negb (is_exit ev)) (removelast trace) = true ->
            (forall c, In (Startup.process_exit c) trace -> c = 1%Z) ->
            code = 1%Z /\ post = []).
  { intros trace pre post code H Hlast Hone. split.
    - apply Hone. rewrite H. apply in_or_app. right. left. reflexivity.
    - exact (exit_is_last trace pre post code Hlast H). }
  unfold ServerTool.startup, ToolsArray.startup, Startup.not_.
  destruct (Startup.SUMOLOGIC_ACCESS_ID e =? "") eqn:Eid;
    [ | destruct (Startup.SUMOLOGIC_ACCESS_KEY e =? "") eqn:Ekey;
        [ | destruct connected ] ];
    cbn [orb].
  - apply String.eqb_eq in Eid.
    split; [ | split ].
    + split; [auto | intros _; simpl; auto].
    + split; [auto | intros _; simpl; auto].
    + intros pre post code [H | H];
        (eapply Hcode; [exact H | reflexivity | ]);
        intros c Hin; simpl in Hin;
        repeat (destruct Hin as [Hin | Hin];
                [try discriminate Hin; congruence | ]);
        contradiction.
  - apply String.eqb_eq in Ekey.
    split; [ | split ].
    + split; [auto | intros _; simpl; auto].
    + split; [auto | intros _; simpl; auto].
    + intros pre post code [H | H];
        (eapply Hcode; [exact H | reflexivity | ]);
        intros c Hin; simpl in Hin;
        repeat (destruct Hin as [Hin | Hin];
                [try discriminate Hin; congruence | ]);
        contradiction.
  - apply String.eqb_neq in Eid, Ekey.
    split; [ | split ].
    + split; [ | intros [H | [H | H]]; congruence].
      intros H; simpl in H.
      repeat (destruct H as [H | H]; [discriminate H | ]). contradiction.
    + split; [ | intros [H | [H | H]]; congruence].
      intros H; simpl in H.
      repeat (destruct H as [H | H]; [discriminate H | ]). contradiction.
    + intros pre post code [H | H];
        (eapply Hcode; [exact H | reflexivity | ]);
        intros c Hin; simpl in Hin;
        repeat (destruct Hin as [Hin | Hin];
                [try discriminate Hin; congruence | ]);
        contradiction.
  - split; [ | split ].
    + split; [auto | intros _; simpl; auto 30].
    + split; [auto | intros _; simpl; auto 30].
    + intros pre post code [H | H];
        (eapply Hcode; [exact H | reflexivity | ]);
        intros c Hin; simpl in Hin;
        repeat (destruct Hin as [Hin | Hin];
                [try discriminate Hin; congruence | ]);
        contradiction.
Qed.

Lemma startup_exits_witness :
  In (Startup.process_exit 1) (ServerTool.startup credentials_only false).
Proof.
  apply (proj1 (startup_exits credentials_only false)).
  right. right. reflexivity.
Defined.

(** X16. When both credentials are set and not empty, the client is
    created with them as user name and password and with the endpoint
    variable as base URL when that is set and not empty (the default
    otherwise), and the fourteen tools are registered once each, in the
    order of the file, whether or not the connection then succeeds.  When
    a credential is missing, no client is created and no tool is
    registered.  Both files. *)
Theorem startup_client_and_registrations (e : Startup.env)
    (connected : bool) :
  (credentials_present e ->
   (exists cfg,
      created_client (ServerTool.startup e connected) = Some cfg
      /\ cfg.(Startup.username) = Startup.SUMOLOGIC_ACCESS_ID e
      /\ cfg.(Startup.password) = Startup.SUMOLOGIC_ACCESS_KEY e
      /\ cfg.(Startup.baseURL) = Startup.SUMOLOGIC_API_ENDPOINT e
      /\ (forall u, e "SUMOLOGIC_API_ENDPOINT" = Some u -> u <> "" ->
                    cfg.(Startup.baseURL) = u)
      /\ (e "SUMOLOGIC_API_ENDPOINT" = Some "" ->
          cfg.(Startup.baseURL) = default_endpoint)
      /\ exists cfg',
           created_client (ToolsArray.startup e connected) = Some cfg'
           /\ cfg'.(Startup.username) = cfg.(Startup.username)
           /\ cfg'.(Startup.password) = cfg.(Startup.password)
           /\ cfg'.(Startup.baseURL) = cfg.(Startup.baseURL))
   /\ registered (ServerTool.startup e connected)
      = map ServerTool.name ServerTool.tools
   /\ registered (ToolsArray.startup e connected)
      = map ToolsArray.name ToolsArray.sumoLogicTools)
  /\ (~ credentials_present e ->
      created_client (ServerTool.startup e connected) = None
      /\ registered (ServerTool.startup e connected) = []
      /\ created_client (ToolsArray.startup e connected) = None
      /\ registered (ToolsArray.startup e connected) = []).
Proof.
  unfold credentials_present, ServerTool.startup, ToolsArray.startup,
    Startup.not_.
  split.
  - intros [Hid Hkey]. apply String.eqb_neq in Hid, Hkey.
    rewrite Hid, Hkey. cbn [orb].
    split; [ | split; destruct connected; reflexivity ].
    eexists. split; [reflexivity | ].
    cbn [Startup.username Startup.password Startup.baseURL].
    repeat match goal with |- _ /\ _ => split end; try reflexivity.
    + intros u Hu Hne. unfold Startup.SUMOLOGIC_API_ENDPOINT, Startup.env_or.
      rewrite Hu. apply String.eqb_neq in Hne. rewrite Hne. reflexivity.
    + intros Hu. unfold Startup.SUMOLOGIC_API_ENDPOINT, Startup.env_or.
      rewrite Hu. reflexivity.
    + eexists. split; [reflexivity | ]. repeat split.
  - intros Hmissing.
    destruct (Startup.SUMOLOGIC_ACCESS_ID e =? "") eqn:Eid;
      [ | destruct (Startup.SUMOLOGIC_ACCESS_KEY e =? "") eqn:Ekey ];
      cbn [orb]; try (repeat split; reflexivity).
    exfalso. apply Hmissing.
    apply String.eqb_neq in Eid, Ekey. split; assumption.
Qed.

Lemma startup_client_and_registrations_witness :
  exists cfg,
    created_client (ServerTool.startup full_env true) = Some cfg
    /\ cfg.(Startup.baseURL) = "https://api.us2.sumologic.com/api".
Proof.
  destruct (proj1 (proj1 (startup_client_and_registrations full_env true)
                     ltac:(split; vm_compute; discriminate)))
    as [cfg [Hc [_ [_ [_ [Hu _]]]]]].
  exists cfg. split; [exact Hc | ].
  apply Hu; [reflexivity | discriminate].
Defined.

(** ** After a failed call *)

Ltac failed_call_last :=
  intros pre q post Hlog [m' [resp' Hrej]];
  destruct pre as [| q1 [| q2 pre]]; cbn [app] in Hlog;
  inversion Hlog; subst;
  try reflexivity;
  try (destruct pre; discriminate);
  congruence.

(** X17. No handler goes on after a call that failed: in the log of every
    invocation, a call the transport rejected is the last one.  Both
    files. *)
Theorem failed_call_is_last :
  (forall t args tr pre q post,
     In t ServerTool.tools ->
     snd (run (t.(ServerTool.handler) args) tr) = (pre ++ q :: post)%list ->
     (exists message response, tr pre q = Reject message response) ->
     post = [])
  /\ (forall t args tr pre q post,
        In t ToolsArray.sumoLogicTools ->
        snd (run (t.(ToolsArray.execute) args) tr)
        = (pre ++ q :: post)%list ->
        (exists message response, tr pre q = Reject message response) ->
        post = []).
Proof.
  split.
  - intros t args tr pre q post Hin. revert pre q post.
    unfold ServerTool.tools in Hin. cbn [In] in Hin.
    repeat (destruct Hin as [Hin | Hin];
            [subst t; cbn [ServerTool.handler] in * | ]);
      try contradiction;
      unfold_handlers; run_to_end; failed_call_last.
  - intros t args tr pre q post Hin. revert pre q post.
    unfold ToolsArray.sumoLogicTools in Hin. cbn [In] in Hin.
    repeat (destruct Hin as [Hin | Hin];
            [subst t; cbn [ToolsArray.execute] in * | ]);
      try contradiction;
      unfold_handlers; run_to_end; name_errors; legacy_normalize;
      cbn [snd]; failed_call_last.
Qed.

Lemma failed_call_is_last_witness :
  snd (run (ServerTool.update_collector (VStr "123") (VStr "B") VUndefined
              VUndefined VUndefined) network_down)
  = ([] ++ collector_get (VStr "123") :: [])%list
  /\ @nil request = [].
Proof.
  split; [reflexivity | ].
  exact (proj1 failed_call_is_last
           (nth 4 ServerTool.tools get_collector_tool)
           [("collector_id", VStr "123"); ("name", VStr "B")] network_down
           [] (collector_get (VStr "123")) [] ltac:(simpl; auto 10) eq_refl
           (ex_intro _ "Network Error" (ex_intro _ None eq_refl))).
Defined.
